(** * Job-hunting agent: extraction and synthesis pipeline

    A shallow embedding of [JobHuntingAgent] from [app.py] and
    [job-hunt.py]: the two methods [find_jobs] and [get_industry_trends],
    the Python values they handle, and the two remote services they call
    ([self.firecrawl.extract] and [self.agent.run]).

    Text is [string] (a sequence of bytes, UTF-8 for the non-ASCII
    characters of the prompt templates).  The remote services are functions
    from a request to an outcome (a value or a raised exception); a method
    runs in a small monad that logs every remote call it makes, so that
    "invoked exactly once" and "never invoked" are facts about the log.
    The [print] statements, which only write debugging output, are left
    out. *)

From Stdlib Require Import String Ascii List ZArith Bool Arith Lia DecimalString.
Import ListNotations.
Open Scope string_scope.

(** ** Python text *)

Module Py.

(** Characters a Rocq literal cannot hold directly. *)
Definition nl : string := String (ascii_of_nat 10) EmptyString.
Definition dq : string := String (ascii_of_nat 34) EmptyString.

(** [sep.join(l)]. *)
Definition join (sep : string) (l : list string) : string := String.concat sep l.

(** A triple-quoted literal, given line by line. *)
Definition lines (l : list string) : string := join nl l.

(** [s.replace(old, new)] for one-character [old] and [new]. *)
Fixpoint replace (old new : ascii) (s : string) : string :=
  match s with
  | EmptyString => EmptyString
  | String c s' =>
      String (if Ascii.eqb c old then new else c) (replace old new s')
  end.

(** [s.startswith(p)]. *)
Definition startswith (p s : string) : bool := String.prefix p s.

(** [p in s] on text: [p] occurs somewhere in [s]. *)
Fixpoint contains (p s : string) : bool :=
  startswith p s ||
  match s with
  | EmptyString => false
  | String _ s' => contains p s'
  end.

(** [str(n)] for a length, [str(z)] for an int. *)
Definition str_nat (n : nat) : string := NilZero.string_of_uint (Nat.to_uint n).
Definition str_int (z : Z) : string := NilZero.string_of_int (Z.to_int z).

(** The builtins whose result depends on the Unicode database of the
    interpreter: [str.lower], [len] (a count of code points) and [repr]
    of a [str].  The methods are written against this interface. *)
Class Builtins : Type := {
  lower : string -> string;
  len : string -> nat;
  repr_text : string -> string
}.

(** ** Python values

    What a decoded JSON payload holds.  A float is carried by the literal
    [repr] prints for it, which identifies the float. *)
#[warnings="-register-all"]
Inductive pyval : Type :=
| PNone
| PBool (b : bool)
| PInt (z : Z)
| PFloat (literal : string)
| PStr (s : string)
| PList (l : list pyval)
| PDict (d : list (string * pyval)).

(** A [dict] with text keys, in insertion order. *)
Definition dict : Type := list (string * pyval).

(** [d.get(key, default)]. *)
Fixpoint dict_get (d : dict) (key : string) (default : pyval) : pyval :=
  match d with
  | [] => default
  | (k, v) :: d' => if String.eqb k key then v else dict_get d' key default
  end.

(** [key in d]. *)
Fixpoint dict_has (d : dict) (key : string) : bool :=
  match d with
  | [] => false
  | (k, _) :: d' => String.eqb k key || dict_has d' key
  end.

(** [bool(v)], the test behind [if v] and [not v]. *)
Definition truthy (v : pyval) : bool :=
  match v with
  | PNone => false
  | PBool b => b
  | PInt z => negb (Z.eqb z 0)
  | PFloat x => negb (String.eqb x "0.0" || String.eqb x "-0.0")
  | PStr s => negb (String.eqb s "")
  | PList l => match l with [] => false | _ => true end
  | PDict d => match d with [] => false | _ => true end
  end.

(** [type(v).__name__]. *)
Definition type_name (v : pyval) : string :=
  match v with
  | PNone => "NoneType"
  | PBool _ => "bool"
  | PInt _ => "int"
  | PFloat _ => "float"
  | PStr _ => "str"
  | PList _ => "list"
  | PDict _ => "dict"
  end.

Section Repr.
Context `{Builtins}.

(** [repr(v)]. *)
Fixpoint py_repr (v : pyval) : string :=
  match v with
  | PNone => "None"
  | PBool b => if b then "True" else "False"
  | PInt z => str_int z
  | PFloat x => x
  | PStr s => repr_text s
  | PList l => "[" ++ join ", " (map py_repr l) ++ "]"
  | PDict d =>
      "{" ++ join ", "
               (map (fun kv => repr_text (fst kv) ++ ": " ++ py_repr (snd kv)) d)
          ++ "}"
  end.

(** [str(v)], which is what an f-string field [{v}] inserts. *)
Definition py_str (v : pyval) : string :=
  match v with
  | PStr s => s
  | _ => py_repr v
  end.
End Repr.

(** ** The builtins on ASCII text

    On text made of ASCII characters the three builtins are the
    following functions. *)
Definition ascii_lower (c : ascii) : ascii :=
  let n := nat_of_ascii c in
  if ((65 <=? n) && (n <=? 90))%nat then ascii_of_nat (n + 32) else c.

Fixpoint lower_ascii (s : string) : string :=
  match s with
  | EmptyString => EmptyString
  | String c s' => String (ascii_lower c) (lower_ascii s')
  end.

Definition hex_digit (n : nat) : ascii :=
  ascii_of_nat (if (n <? 10)%nat then 48 + n else 87 + n).

Definition sq_char : ascii := ascii_of_nat 39.
Definition dq_char : ascii := ascii_of_nat 34.
Definition bs_char : ascii := ascii_of_nat 92.

Fixpoint has_char (c : ascii) (s : string) : bool :=
  match s with
  | EmptyString => false
  | String c' s' => Ascii.eqb c c' || has_char c s'
  end.

Fixpoint escape (quote : ascii) (s : string) : string :=
  match s with
  | EmptyString => EmptyString
  | String c s' =>
      let n := nat_of_ascii c in
      (if Ascii.eqb c quote || Ascii.eqb c bs_char then String bs_char (String c EmptyString)
       else if (n =? 9)%nat then String bs_char "t"
       else if (n =? 10)%nat then String bs_char "n"
       else if (n =? 13)%nat then String bs_char "r"
       else if ((n <? 32) || (n =? 127))%nat then
         String bs_char (String "x" (String (hex_digit (n / 16))
                                       (String (hex_digit (n mod 16)) EmptyString)))
       else String c EmptyString)
      ++ escape quote s'
  end.

Definition repr_ascii (s : string) : string :=
  let quote := if has_char sq_char s && negb (has_char dq_char s)
               then dq_char else sq_char in
  String quote (escape quote s ++ String quote EmptyString).

Definition ascii_text : Builtins :=
  {| lower := lower_ascii; len := String.length; repr_text := repr_ascii |}.

End Py.

Import Py.

(** ** Remote calls and their log *)

Module Remote.

(** The schema descriptor sent with an extraction request:
    [ExtractSchema.model_json_schema()] or
    [IndustryTrendsSchema.model_json_schema()]. *)
Inductive schema : Type := ExtractSchema | IndustryTrendsSchema.

(** What a Streamlit call puts on the page. *)
Inductive widget : Type :=
| st_error (body : string)
| st_warning (body : string)
| st_info (body : string)
| st_success (body : string)
| st_subheader (body : string)
| st_markdown (body : string)
| st_divider
| st_expander (label body : string).

(** One observable action of a run, in the order it happens. *)
Inductive event : Type :=
| Extract (urls : list string) (prompt : string) (sch : schema)
| Run (prompt : string)
| Show (w : widget).

(** A call returns a value or raises; [e] is [str(e)] of the exception. *)
Inductive outcome (A : Type) : Type :=
| Returned (a : A)
| Raised (e : string).
Arguments Returned {A} a.
Arguments Raised {A} e.

(** A computation that may raise and that logs its actions. *)
Definition M (A : Type) : Type := list event -> outcome A * list event.

Definition ret {A : Type} (a : A) : M A := fun log => (Returned a, log).

Definition raise {A : Type} (e : string) : M A := fun log => (Raised e, log).

Definition bind {A B : Type} (m : M A) (k : A -> M B) : M B :=
  fun log =>
    match m log with
    | (Returned a, log') => k a log'
    | (Raised e, log') => (Raised e, log')
    end.

(** [try: body  except Exception as e: handler(str(e))]. *)
Definition try_except {A : Type} (body : M A) (handler : string -> M A) : M A :=
  fun log =>
    match body log with
    | (Returned a, log') => (Returned a, log')
    | (Raised e, log') => handler e log'
    end.

(** Perform an action whose outcome is [o], logging it as [ev]. *)
Definition perform {A : Type} (ev : event) (o : outcome A) : M A :=
  fun log => (o, log ++ [ev])%list.

(** A method called on a fresh page and an empty log. *)
Definition exec {A : Type} (m : M A) : outcome A * list event := m [].

Definition result {A : Type} (m : M A) : outcome A := fst (exec m).
Definition trace {A : Type} (m : M A) : list event := snd (exec m).

(** The remote calls a run made. *)
Definition is_run (ev : event) : bool :=
  match ev with Run _ => true | _ => false end.
Definition runs (log : list event) : list event := filter is_run log.

End Remote.

Import Remote.

Notation "x <- m ;; k" := (bind m (fun x => k))
  (at level 61, m at next level, right associativity).

(** ** The text of the two methods

    The f-strings of [find_jobs] and [get_industry_trends].  [app.py] and
    [job-hunt.py] hold the same text, character for character. *)

Module Templates.
Section Templates.
Context `{Builtins}.

Definition job_extraction_prompt (job_title location : string) (experience_years : pyval) (skills_string : string) : string :=
  lines [
    " Extract Job Posting by region , roles, job titles and  experience from these job sites.";
    EmptyString;
    "                    Look for Jobs that match these criteria:";
    "                    -Job Title: Should be related to " ++ job_title;
    "                    -Location: " ++ location ++ " (include remote Jobs if available)";
    "                    -Experience: Around " ++ py_str experience_years ++ " years";
    "                    -Skills: Should match at least some of these skills :" ++ skills_string;
    "                    -Job Type: Full-time, Part-Time, Contract, Temperory, Internship";
    EmptyString;
    "                    For each Job posting, extract:";
    "                    -region: The Broader region or area where the job is located";
    "                    -role: The specific role or function ";
    "                    -job_title: The exact title of the job ";
    "                    -experience: The experience requirement in years or levels";
    "                    -job_link: The link to the job posting ";
    EmptyString;
    "                    IMPORTANT: Return data for at least 3 different job opportunities. MAXIMUM 10.";
    "                    "
  ].

Definition job_analysis_prompt (jobs : pyval) (job_title location : string) (experience_years : pyval) (skills_string : string) : string :=
  lines [
    "As a career expert, anaylze these job opportunities:";
    "                ";
    "                Job Found in json format:";
    "                " ++ py_str jobs;
    EmptyString;
    "                **IMPORTANT INSTRUCTIONS:**";
    "                1.ONLY analyze jobs from the above JSON data that match the user's requirements:";
    "                    -Job Title: Related to " ++ job_title;
    "                    -Location/Region: Near " ++ location;
    "                    -Experience: Around " ++ py_str experience_years ++ " years";
    "                    -skills: " ++ skills_string;
    "                    -Job type: Full-time, Part-time, Contract, Temperory, Internship";
    "                2.DO NOT CREATE new Job Listings";
    "                3.From the matching jobs, select 5-6 jobs that best match the user's skills and experience";
    EmptyString;
    "                Please provide your analysis in this format:";
    "                ";
    "                💼 SELECTED JOB OPPORTUNITIES";
    "                • List only 5-6 best matching jobs";
    "                • For each job include:";
    "                  - Job Title and Role";
    "                  - Region/Location";
    "                  - Experience Required";
    "                  - Pros and Cons";
    "                  - Job Link";
    "                🔍 SKILLS MATCH ANALYSIS";
    "                • Compare the selected jobs based on:";
    "                  - Skills match with user's profile";
    "                  - Experience requirements";
    "                  - Growth potential";
    EmptyString;
    "                💡 RECOMMENDATIONS";
    "                • Top 3 jobs from the selection with reasoning";
    "                • Career growth potential";
    "                • Points to consider before applying";
    EmptyString;
    "                📝 APPLICATION TIPS";
    "                • Job-specific application strategies";
    "                • Resume customization tips for these roles";
    EmptyString;
    "                Format your response in a clear, structured way using the above sections.";
    "                "
  ].

Definition trend_extraction_prompt (job_category : string) : string :=
  lines [
    "Extract industry trends data for the " ++ job_category ++ " industry.";
    EmptyString;
    "                    For each industry trend, extract:";
    "                    - industry: The specific industry or sub-category";
    "                    - avg_salary: The average salary in this industry (as a number)";
    "                    - growth_rate: The growth rate of this industry (as a number)";
    "                    - demand_level: The demand level (e.g., " ++ dq ++ "High" ++ dq ++ ", " ++ dq ++ "Medium" ++ dq ++ ", " ++ dq ++ "Low" ++ dq ++ ")";
    "                    - top_skills: A list of top skills in demand for this industry";
    "                    ";
    "                    IMPORTANT: ";
    "                    - Extract data for at least 3-5 different roles or sub-categories within this industry";
    "                    - Include salary trends, growth rate, and demand level";
    "                    - Identify top skills in demand for this industry";
    "                    "
  ].

Definition trend_analysis_prompt (job_category : string) (industries : pyval) : string :=
  lines [
    "As a career expert, analyze these industry trends for " ++ job_category ++ ":";
    EmptyString;
    "                    " ++ py_str industries;
    EmptyString;
    "                    Please provide:";
    "                    1. A bullet-point summary of the salary and demand trends";
    "                    2. Identify the top skills in demand for this industry";
    "                    3. Career growth opportunities:";
    "                       - Roles with highest growth potential";
    "                       - Emerging specializations";
    "                       - Skills with increasing demand";
    "                    4. Specific advice for job seekers based on these trends";
    EmptyString;
    "                    Format the response as follows:";
    "                    ";
    "                    📊 INDUSTRY TRENDS SUMMARY";
    "                    • [Bullet points for salary and demand trends]";
    EmptyString;
    "                    🔥 TOP SKILLS IN DEMAND";
    "                    • [Bullet points for most sought-after skills]";
    EmptyString;
    "                    📈 CAREER GROWTH OPPORTUNITIES";
    "                    • [Bullet points with growth insights]";
    EmptyString;
    "                    🎯 RECOMMENDATIONS FOR JOB SEEKERS";
    "                    • [Bullet points with specific advice]";
    "                    "
  ].


(** Returned when [jobs] is falsy. *)
Definition no_job_listing : string :=
  "No job listing found matching your criteria. Try adjusting your search parameters or try different job sites.".

(** Returned by the handler of [find_jobs]. *)
Definition find_jobs_error (e : string) : string :=
  "An error occured while searching for jobs: " ++ e ++ nl ++ nl
  ++ "Please try again with different search parameters or check if the job sites are supported by Firecrawl.".

(** Returned when the response succeeded and [industries] is falsy. *)
Definition no_trends_data (job_category : string) : string :=
  "No industry trends data available for " ++ job_category
  ++ ".Try a different industry category.".

(** Returned when the response did not succeed. *)
Definition no_trend_data (job_category : string) : string :=
  "No industry trend data available for " ++ job_category
  ++ ".Try different industry category.".

(** Returned by the handler of [get_industry_trends]. *)
Definition industry_trends_error (e : string) : string :=
  "An error occurerd while fetching industry trends: " ++ e ++ nl ++ nl
  ++ "Please try again with a different industry category or check if the sites are supported by Firecrawl. ".

(** The target URLs. *)
Definition job_urls (job_title location : string) : list string :=
  let formatted_job_title := replace " " "-" (lower job_title) in
  let formatted_location := replace " " "-" (lower location) in
  [ "https://www.naukri.com/" ++ formatted_job_title ++ "-jobs-in-" ++ formatted_location;
    "https://www.indeed.com/jobs?q=" ++ formatted_job_title ++ "&l=" ++ formatted_location;
    "https://www.monster.com/jobs/search/?q=" ++ formatted_job_title ++ "&where="
      ++ formatted_location ].

Definition trend_urls (job_category : string) : list string :=
  [ "https://www.payscale.com/research/US/Job=" ++ replace " " "-" job_category ++ "/Salary";
    "https://www.glassdoor.com/Salaries/" ++ replace " " "-" (lower job_category)
      ++ "-salary-SRCH_KO0," ++ str_nat (len job_category) ++ ".htm" ].

End Templates.
End Templates.

Import Templates.

(** ** [app.py] *)

Module App.

(** [FirecrawlResponse]: what [self.firecrawl.extract] returns. *)
Record FirecrawlResponse : Type := {
  success : bool;
  data : dict;
  status : string;
  expiresAt : string
}.

Section JobHuntingAgent.
Context `{Builtins}.

(** The two remote services held by the agent. *)
Variable firecrawl_extract : list string -> string -> schema -> outcome FirecrawlResponse.
Variable agent_run : string -> outcome string.

Definition extract (urls : list string) (prompt : string) (sch : schema)
  : M FirecrawlResponse :=
  perform (Extract urls prompt sch) (firecrawl_extract urls prompt sch).

Definition run (prompt : string) : M string :=
  perform (Run prompt) (agent_run prompt).

(** "process the Raw response" of [find_jobs]: the value bound to [jobs]. *)
Definition jobs_of (raw_response : FirecrawlResponse) : pyval :=
  if success raw_response
  then dict_get (data raw_response) "job_postings" (PList [])
  else PList [].

Definition find_jobs (job_title location : string) (experience_years : pyval)
    (skills : list string) : M string :=
  let skills_string := join ", " skills in
  let urls := job_urls job_title location in
  try_except
    (raw_response <- extract urls
        (job_extraction_prompt job_title location experience_years skills_string)
        ExtractSchema ;;
     let jobs := jobs_of raw_response in
     if negb (truthy jobs) then ret no_job_listing
     else
       content <- run (job_analysis_prompt jobs job_title location experience_years
                         skills_string) ;;
       ret content)
    (fun e => ret (find_jobs_error e)).

(** The value bound to [industries] when the response succeeded. *)
Definition industries_of (raw_response : FirecrawlResponse) : pyval :=
  dict_get (data raw_response) "industry_trends" (PList []).

Definition get_industry_trends (job_category : string) : M string :=
  let urls := trend_urls job_category in
  try_except
    (raw_response <- extract urls (trend_extraction_prompt job_category)
        IndustryTrendsSchema ;;
     if success raw_response then
       let industries := industries_of raw_response in
       if negb (truthy industries) then ret (no_trends_data job_category)
       else
         content <- run (trend_analysis_prompt job_category industries) ;;
         ret content
     else ret (no_trend_data job_category))
    (fun e => ret (industry_trends_error e)).

(** The test [main] applies to a returned string to decide that it is an
    error: ["error" in results.lower()]. *)
Definition looks_like_error (results : string) : bool :=
  contains "error" (lower results).

Definition show (w : widget) : M unit := perform (Show w) (Returned tt).

(** The hints of the handler of [main]. *)
Definition hint (error_message : string) : string :=
  if contains "website is no longer supported" (lower error_message) then
    "One of the job sites isn’t supported by Firecrawl. Contact Firecrawl support."
  else if contains "api key" (lower error_message) then
    "Check that your API keys are correct and have necessary permissions."
  else "Try again with different parameters or check your internet connection.".

(** [main] from the click on the search button, for a session that holds
    an agent. *)
Definition main (job_title location : string) (experience_years : pyval)
    (skills : list string) (job_category : string) : M unit :=
  if String.eqb job_title "" || String.eqb location "" then
    show (st_error "⚠️ Please enter both job title and location!")
  else
    _ <- (match skills with
          | [] => show (st_warning
                    "⚠️ No skills provided. Adding skills will improve job matching.")
          | _ => ret tt
          end) ;;
    try_except
      (job_results <- find_jobs job_title location experience_years skills ;;
       if looks_like_error job_results then show (st_error job_results)
       else
         _ <- show (st_success "✅ Job search completed!") ;;
         _ <- show (st_subheader "💼 Job Recommendations") ;;
         _ <- show (st_markdown job_results) ;;
         _ <- show st_divider ;;
         industry_trends <- get_industry_trends job_category ;;
         if looks_like_error industry_trends then show (st_error industry_trends)
         else
           _ <- show (st_success "✅ Industry analysis completed!") ;;
           show (st_expander ("📈 " ++ job_category ++ " Industry Trends Analysis")
                   industry_trends))
      (fun error_message =>
         _ <- show (st_error ("❌ An error occurred: " ++ error_message)) ;;
         show (st_info (hint error_message))).

End JobHuntingAgent.
End App.

(** ** [job-hunt.py] *)

Module JobHunt.

Section JobHuntingAgent.
Context `{Builtins}.

(** Here [self.firecrawl.extract] returns a plain Python value. *)
Variable firecrawl_extract : list string -> string -> schema -> outcome pyval.
Variable agent_run : string -> outcome string.

Definition extract (urls : list string) (prompt : string) (sch : schema) : M pyval :=
  perform (Extract urls prompt sch) (firecrawl_extract urls prompt sch).

Definition run (prompt : string) : M string :=
  perform (Run prompt) (agent_run prompt).

(** [d[key]] on a dict: [KeyError(key)] when the key is absent. *)
Definition subscript (d : dict) (key : string) : M pyval :=
  if dict_has d key then ret (dict_get d key PNone) else raise (repr_text key).

(** [v.get(key, default)]: only a dict has the method. *)
Definition method_get (v : pyval) (key : string) (default : pyval) : M pyval :=
  match v with
  | PDict d => ret (dict_get d key default)
  | _ => raise ("'" ++ type_name v ++ "' object has no attribute 'get'")
  end.

(** [isinstance(raw_response, dict) and raw_response.get('success')]:
    the dict when the test passes. *)
Definition succeeded (raw_response : pyval) : option dict :=
  match raw_response with
  | PDict r => if truthy (dict_get r "success" PNone) then Some r else None
  | _ => None
  end.

(** [raw_response['data'].get(key, [])]. *)
Definition payload_get (r : dict) (key : string) : M pyval :=
  d <- subscript r "data" ;; method_get d key (PList []).

(** "process the Raw response" of [find_jobs]: the value bound to [jobs]. *)
Definition jobs_of (raw_response : pyval) : M pyval :=
  match succeeded raw_response with
  | Some r => payload_get r "job_postings"
  | None => ret (PList [])
  end.

Definition find_jobs (job_title location : string) (experience_years : pyval)
    (skills : list string) : M string :=
  let skills_string := join ", " skills in
  let urls := job_urls job_title location in
  try_except
    (raw_response <- extract urls
        (job_extraction_prompt job_title location experience_years skills_string)
        ExtractSchema ;;
     jobs <- jobs_of raw_response ;;
     if negb (truthy jobs) then ret no_job_listing
     else
       content <- run (job_analysis_prompt jobs job_title location experience_years
                         skills_string) ;;
       ret content)
    (fun e => ret (find_jobs_error e)).

Definition get_industry_trends (job_category : string) : M string :=
  let urls := trend_urls job_category in
  try_except
    (raw_response <- extract urls (trend_extraction_prompt job_category)
        IndustryTrendsSchema ;;
     match succeeded raw_response with
     | Some r =>
         industries <- payload_get r "industry_trends" ;;
         if negb (truthy industries) then ret (no_trends_data job_category)
         else
           content <- run (trend_analysis_prompt job_category industries) ;;
           ret content
     | None => ret (no_trend_data job_category)
     end)
    (fun e => ret (industry_trends_error e)).

(** The test [main] applies to a returned string to decide that it is an
    error. *)
Definition error_marker : string := "An error occurred".

Definition looks_like_error (results : string) : bool :=
  contains error_marker results.

Definition show (w : widget) : M unit := perform (Show w) (Returned tt).

(** The hints of the handler of [main]. *)
Definition hint (error_message : string) : string :=
  if contains "website is no longer supported" (lower error_message) then
    "It appears one of the job sites is not supported by your Firecrawl API key. Please contact Firecrawl support to enable these sites for your account."
  else if contains "api key" (lower error_message) then
    "Please check that your API keys are correct and have the necessary permissions."
  else "Please try again with different search parameters or check your internet connection.".

(** [main] from the click on the search button, for a session that holds
    an agent. *)
Definition main (job_title location : string) (experience_years : pyval)
    (skills : list string) (job_category : string) : M unit :=
  if String.eqb job_title "" || String.eqb location "" then
    show (st_error "⚠️ Please enter both job title and location!")
  else
    _ <- (match skills with
          | [] => show (st_warning
                    "⚠️ No skills provided. Adding skills will improve job matching.")
          | _ => ret tt
          end) ;;
    try_except
      (job_results <- find_jobs job_title location experience_years skills ;;
       if looks_like_error job_results then show (st_error job_results)
       else
         _ <- show (st_success "✅ Job search completed!") ;;
         _ <- show (st_subheader "💼 Job Recommendations") ;;
         _ <- show (st_markdown job_results) ;;
         _ <- show st_divider ;;
         industry_trends <- get_industry_trends job_category ;;
         if looks_like_error industry_trends then show (st_error industry_trends)
         else
           _ <- show (st_success "✅ Industry analysis completed!") ;;
           show (st_expander ("📈 " ++ job_category ++ " Industry Trends Analysis")
                   industry_trends))
      (fun error_message =>
         _ <- show (st_error ("❌ An error occurred: " ++ error_message)) ;;
         show (st_info (hint error_message))).

End JobHuntingAgent.
End JobHunt.

(** ** The declared schemas

    The shape the pydantic classes [NestedModel1] and [IndustryTrend]
    declare for one record: a mapping in which a declared field, when
    present, holds a value of the declared type.  The methods send these
    schemas to the extraction service with the request. *)

Module Schema.

Definition is_text (v : pyval) : bool :=
  match v with PStr _ => true | _ => false end.

Definition is_number (v : pyval) : bool :=
  match v with PInt _ | PFloat _ => true | _ => false end.

Definition is_text_list (v : pyval) : bool :=
  match v with PList l => forallb is_text l | _ => false end.

(** Field [f] of mapping [d] is absent or passes [ok]. *)
Definition field_ok (d : dict) (ok : pyval -> bool) (f : string) : bool :=
  negb (dict_has d f) || ok (dict_get d f PNone).

Definition job_posting_fields : list string :=
  ["region"; "role"; "job_title"; "experience"; "job_link"].

(** [NestedModel1]. *)
Definition is_job_posting (v : pyval) : bool :=
  match v with
  | PDict d => forallb (field_ok d is_text) job_posting_fields
  | _ => false
  end.

(** [IndustryTrend]. *)
Definition is_industry_trend (v : pyval) : bool :=
  match v with
  | PDict d =>
      field_ok d is_text "industry" && field_ok d is_number "avg_salary"
      && field_ok d is_number "growth_rate" && field_ok d is_text "demand_level"
      && field_ok d is_text_list "top_skills"
  | _ => false
  end.

(** [List[NestedModel1]] and [List[IndustryTrend]]. *)
Definition is_job_postings (v : pyval) : bool :=
  match v with PList l => forallb is_job_posting l | _ => false end.

Definition is_industry_trends (v : pyval) : bool :=
  match v with PList l => forallb is_industry_trend l | _ => false end.

(** Every declared field of a job posting is present in the record, with
    a value or with the default [None]. *)
Definition all_fields_set (v : pyval) : bool :=
  match v with
  | PDict d => forallb (dict_has d) job_posting_fields
  | _ => false
  end.

(** The records of a sequence. *)
Definition records (v : pyval) : list pyval :=
  match v with PList l => l | _ => [] end.

End Schema.

Import Schema.



(** The form a free-text field takes in a URL: lower-cased, hyphen-joined. *)
Definition url_form `{Builtins} (field : string) : string :=
  replace " " "-" (lower field).

(** ** Sample runs

    Concrete services, responses and records on which the methods are
    evaluated. *)

Module Sample.

(** Services that answer every request the same way. *)
Definition extract_returns {R : Type} (r : R)
  : list string -> string -> schema -> outcome R := fun _ _ _ => Returned r.
Definition extract_raises {R : Type} (e : string)
  : list string -> string -> schema -> outcome R := fun _ _ _ => Raised e.
Definition run_returns (content : string) : string -> outcome string :=
  fun _ => Returned content.
Definition run_raises (e : string) : string -> outcome string :=
  fun _ => Raised e.

(** A response of the extraction service with one key in its payload. *)
Definition response (ok : bool) (payload : dict) : App.FirecrawlResponse :=
  {| App.success := ok; App.data := payload;
     App.status := "completed"; App.expiresAt := "2026-01-01T00:00:00.000Z" |}.

(** The same response as the plain mapping [job-hunt.py] expects. *)
Definition response_dict (ok : bool) (payload : pyval) : pyval :=
  PDict [("success", PBool ok); ("data", payload); ("status", PStr "completed")].

(** A complete posting, a posting with one field only, and a posting whose
    [region] is a number. *)
Definition full_posting : pyval :=
  PDict [("region", PStr "Pune"); ("role", PStr "Engineer");
         ("job_title", PStr "Data Scientist"); ("experience", PStr "3 years");
         ("job_link", PStr "https://example.com/1")].
Definition partial_posting : pyval := PDict [("region", PStr "Pune")].
Definition odd_posting : pyval := PDict [("region", PInt 7)].

Definition trend : pyval :=
  PDict [("industry", PStr "Advertising"); ("avg_salary", PInt 70000);
         ("demand_level", PStr "High")].
Definition odd_trend : pyval := PDict [("industry", PInt 7)].

(** The criteria of the scenarios. *)
Definition job_title : string := "Data Scientist".
Definition location : string := "New York".
Definition experience_years : pyval := PInt 3.
Definition skills : list string := ["Python"; "SQL"].
Definition job_category : string := "Marketing".

End Sample.

(** ** The input form

    [skills = [s.strip() for s in skills_input.split(",")] if skills_input
    else []] of [main], in both files. *)

Module Input.

(** [s.split(sep)] for a one-character separator. *)
Fixpoint split (sep : ascii) (s : string) : list string :=
  match s with
  | EmptyString => [EmptyString]
  | String c s' =>
      if Ascii.eqb c sep then EmptyString :: split sep s'
      else match split sep s' with
           | [] => [String c EmptyString]
           | piece :: pieces => String c piece :: pieces
           end
  end.

(** [strip] is [str.strip], which consults the Unicode database for what
    is white space. *)
Definition parse_skills (strip : string -> string) (skills_input : string)
  : list string :=
  if String.eqb skills_input "" then [] else map strip (split "," skills_input).

(** The number of occurrences of a character. *)
Fixpoint count_char (c : ascii) (s : string) : nat :=
  match s with
  | EmptyString => 0
  | String c' s' => (if Ascii.eqb c' c then 1 else 0) + count_char c s'
  end.





End Input.

(** ** The session of [app.py]

    [st.session_state] with the entries the sidebar and [create_job_agent]
    use; an entry is [None] until it is set. *)

Module Session.

(** What the constructor of [JobHuntingAgent] is given. *)
Record JobHuntingAgent : Type := {
  firecrawl_api_key : string;
  mistral_api_key : string;
  agent_model_id : string
}.

Record session_state : Type := {
  model_id : option string;
  firecrawl_key : option string;
  mistral_key : option string;
  job_agent : option JobHuntingAgent
}.

Definition fresh : session_state :=
  {| model_id := None; firecrawl_key := None; mistral_key := None; job_agent := None |}.

(** [create_job_agent]: [None] stands for the [AttributeError] of reading
    an entry that is not set. *)
Definition create_job_agent (st : session_state) : option session_state :=
  match job_agent st with
  | Some _ => Some st
  | None =>
      match firecrawl_key st, model_id st with
      | Some fk, Some m =>
          Some {| model_id := model_id st;
                  firecrawl_key := firecrawl_key st;
                  mistral_key := mistral_key st;
                  job_agent :=
                    Some {| firecrawl_api_key := fk;
                            mistral_api_key :=
                              match mistral_key st with
                              | Some mk => mk
                              | None => "dummy_key"
                              end;
                            agent_model_id := m |} |}
      | _, _ => None
      end
  end.

(** [a or b] on text. *)
Definition or_else (a b : string) : string := if String.eqb a "" then b else a.

(** The list [missing] of the sidebar. *)
Definition missing_keys (firecrawl mistral : string) : list string :=
  ((if String.eqb firecrawl "" then ["Firecrawl API key"] else [])
   ++ (if String.eqb mistral "" then ["Mistral API key"] else []))%list.

(** The sidebar of [main]: the chosen model, the keys of the environment
    and the keys typed in the two text inputs.  It returns the session and
    the widgets it shows. *)
Definition sidebar (chosen_model env_firecrawl_key env_mistral_key
                    typed_firecrawl_key typed_mistral_key : string)
    (st : session_state) : option (session_state * list widget) :=
  let st1 := {| model_id := Some chosen_model;
                firecrawl_key := firecrawl_key st;
                mistral_key := mistral_key st;
                job_agent := job_agent st |} in
  let found :=
    ((if String.eqb env_firecrawl_key "" then []
      else [st_success "✅ Firecrawl API Key found in environment variables"])
     ++ (if String.eqb env_mistral_key "" then []
         else [st_success "✅ Mistral API Key found in environment variables"]))%list in
  let firecrawl := or_else typed_firecrawl_key env_firecrawl_key in
  let mistral := or_else typed_mistral_key env_mistral_key in
  if negb (String.eqb firecrawl "") && negb (String.eqb mistral "") then
    match create_job_agent
            {| model_id := model_id st1;
               firecrawl_key := Some firecrawl;
               mistral_key := Some mistral;
               job_agent := job_agent st1 |} with
    | Some st2 => Some (st2, found)
    | None => None
    end
  else
    Some (st1,
          (found ++
           [st_warning ("⚠️ Missing required API keys: "
                        ++ join ", " (missing_keys firecrawl mistral));
            st_info "Please provide the missing keys above or set them in environment variables."])%list).

(** The click on the search button: without an agent in the session only
    an error is shown. *)
Definition on_search `{Builtins}
    (firecrawl_extract : list string -> string -> schema -> outcome App.FirecrawlResponse)
    (agent_run : string -> outcome string)
    (st : session_state) (job_title location : string) (experience_years : pyval)
    (skills : list string) (job_category : string) : M unit :=
  match job_agent st with
  | None => App.show (st_error "⚠️ Please enter your API keys in the sidebar first!")
  | Some _ =>
      App.main firecrawl_extract agent_run job_title location experience_years skills
        job_category
  end.

End Session.

(** ** How a computation treats the log

    A computation is framed when it only appends to the log it is given
    and its outcome does not depend on that log. *)
Definition framed {A : Type} (m : M A) : Prop :=
  forall log, m log = (fst (m []), (log ++ snd (m []))%list).

(** The widgets of a log, and its remote calls. *)
Definition shown (log : list event) : list widget :=
  flat_map (fun ev => match ev with Show w => [w] | _ => [] end) log.

Definition remote_calls (log : list event) : list event :=
  filter (fun ev => match ev with Show _ => false | _ => true end) log.

(** [p] occurs in [s]: the meaning of [contains p s]. *)
Definition occurs (p s : string) : Prop := exists a b, s = a ++ p ++ b.

(** * Facts *)

(** ** Text *)

Section TextFacts.

Lemma append_assoc (a b c : string) : (a ++ b) ++ c = a ++ (b ++ c).
Proof. induction a as [|x a IH]; simpl; [reflexivity | now rewrite IH]. Qed.

Lemma append_nil_r (a : string) : a ++ "" = a.
Proof. induction a as [|x a IH]; simpl; [reflexivity | now rewrite IH]. Qed.

Lemma length_append (a b : string) :
  String.length (a ++ b) = String.length a + String.length b.
Proof. induction a as [|x a IH]; simpl; [reflexivity | now rewrite IH]. Qed.

Lemma append_inv_tail (a b c : string) : a ++ c = b ++ c -> a = b.
Proof.
  revert b; induction a as [|x a IH]; intros [|y b] E; simpl in E.
  - reflexivity.
  - apply (f_equal String.length) in E; simpl in E.
    rewrite length_append in E; lia.
  - apply (f_equal String.length) in E; simpl in E.
    rewrite length_append in E; lia.
  - injection E as -> E; f_equal; now apply IH.
Qed.

Lemma startswith_spec (p s : string) :
  startswith p s = true <-> exists b, s = p ++ b.
Proof.
  unfold startswith; revert p; induction s as [|c s IH]; intros [|x p]; simpl.
  - split; [now exists "" | reflexivity].
  - split; [discriminate | intros [b E]; discriminate].
  - split; [now exists (String c s) | reflexivity].
  - destruct (ascii_dec x c) as [->|N].
    + rewrite IH; split; intros [b E]; exists b; [now rewrite E | now injection E].
    + split; [discriminate | intros [b E]; congruence].
Qed.

Lemma contains_spec (p s : string) : contains p s = true <-> occurs p s.
Proof.
  split.
  - induction s as [|c s IH]; cbn [contains]; intros E;
      apply orb_true_iff in E as [E|E].
    + apply startswith_spec in E as [b ->]; now exists "", b.
    + discriminate.
    + apply startswith_spec in E as [b ->]; now exists "", b.
    + destruct (IH E) as (a & b & ->); now exists (String c a), b.
  - intros (a & b & ->); induction a as [|c a IH].
    + assert (S : startswith p (p ++ b) = true) by (apply startswith_spec; now exists b).
      change ("" ++ p ++ b) with (p ++ b).
      destruct (p ++ b); cbn [contains]; rewrite S; reflexivity.
    + change (String c a ++ p ++ b) with (String c (a ++ p ++ b)).
      cbn [contains]; rewrite IH; apply orb_true_r.
Qed.

Lemma occurs_refl (s : string) : occurs s s.
Proof. exists "", ""; simpl; now rewrite append_nil_r. Qed.

Lemma occurs_trans (p q s : string) : occurs p q -> occurs q s -> occurs p s.
Proof.
  intros (a & b & ->) (c & d & ->); exists (c ++ a), (b ++ d).
  now rewrite !append_assoc.
Qed.

Lemma occurs_app_l (p a b : string) : occurs p a -> occurs p (a ++ b).
Proof.
  intros (x & y & ->); exists x, (y ++ b); now rewrite !append_assoc.
Qed.

Lemma occurs_app_r (p a b : string) : occurs p b -> occurs p (a ++ b).
Proof.
  intros (x & y & ->); exists (a ++ x), y; now rewrite !append_assoc.
Qed.

Lemma occurs_join (sep x : string) (l : list string) :
  In x l -> occurs x (join sep l).
Proof.
  unfold join; induction l as [|y l IH]; [intros [] |].
  intros [->|I]; destruct l as [|z l].
  - apply occurs_refl.
  - cbn [concat]; apply occurs_app_l, occurs_refl.
  - destruct I.
  - cbn [concat]; apply occurs_app_r, occurs_app_r, IH, I.
Qed.

Lemma occurs_lines (x : string) (l : list string) : In x l -> occurs x (lines l).
Proof. apply occurs_join. Qed.

(** A literal occurrence, checked by evaluation, inside a larger text. *)
Lemma occurs_by_contains (p s : string) : contains p s = true -> occurs p s.
Proof. apply contains_spec. Qed.

End TextFacts.

(** ** The runs of [app.py] *)

Section AppRuns.
Context `{Builtins}.
Variable firecrawl_extract : list string -> string -> schema -> outcome App.FirecrawlResponse.
Variable agent_run : string -> outcome string.

Ltac step_run :=
  cbv beta iota zeta delta
    [exec result trace App.find_jobs App.get_industry_trends try_except bind
     App.extract App.run perform ret raise app fst snd negb].

(** What a run of [find_jobs] returns and logs, by cases on what the two
    services answer. *)
Lemma find_jobs_exec (job_title location : string) (experience_years : pyval)
    (skills : list string) :
  let skills_string := join ", " skills in
  let request :=
    Extract (job_urls job_title location)
      (job_extraction_prompt job_title location experience_years skills_string)
      ExtractSchema in
  exec (App.find_jobs firecrawl_extract agent_run job_title location
          experience_years skills) =
  match firecrawl_extract (job_urls job_title location)
          (job_extraction_prompt job_title location experience_years skills_string)
          ExtractSchema with
  | Raised e => (Returned (find_jobs_error e), [request])
  | Returned raw_response =>
      let jobs := App.jobs_of raw_response in
      let prompt :=
        job_analysis_prompt jobs job_title location experience_years skills_string in
      if truthy jobs then
        match agent_run prompt with
        | Returned content => (Returned content, [request; Run prompt])
        | Raised e => (Returned (find_jobs_error e), [request; Run prompt])
        end
      else (Returned no_job_listing, [request])
  end.
Proof.
  step_run.
  destruct (firecrawl_extract _ _ _) as [raw_response|e]; [|reflexivity].
  destruct (truthy (App.jobs_of raw_response)); [|reflexivity].
  destruct (agent_run _); reflexivity.
Qed.

(** The same for [get_industry_trends]. *)
Lemma get_industry_trends_exec (job_category : string) :
  let request :=
    Extract (trend_urls job_category) (trend_extraction_prompt job_category)
      IndustryTrendsSchema in
  exec (App.get_industry_trends firecrawl_extract agent_run job_category) =
  match firecrawl_extract (trend_urls job_category)
          (trend_extraction_prompt job_category) IndustryTrendsSchema with
  | Raised e => (Returned (industry_trends_error e), [request])
  | Returned raw_response =>
      if App.success raw_response then
        let industries := App.industries_of raw_response in
        let prompt := trend_analysis_prompt job_category industries in
        if truthy industries then
          match agent_run prompt with
          | Returned content => (Returned content, [request; Run prompt])
          | Raised e => (Returned (industry_trends_error e), [request; Run prompt])
          end
        else (Returned (no_trends_data job_category), [request])
      else (Returned (no_trend_data job_category), [request])
  end.
Proof.
  step_run.
  destruct (firecrawl_extract _ _ _) as [raw_response|e]; [|reflexivity].
  destruct (App.success raw_response); [|reflexivity].
  destruct (truthy (App.industries_of raw_response)); [|reflexivity].
  destruct (agent_run _); reflexivity.
Qed.

End AppRuns.

(** ** What the prompts hold *)

Section PromptFacts.
Context `{Builtins}.

Ltac find_line := cbn [In]; repeat first [left; reflexivity | right].






End PromptFacts.

Lemma append_inv_head (a b c : string) : a ++ b = a ++ c -> b = c.
Proof.
  induction a as [|x a IH]; cbn [append]; intros E; [exact E|].
  injection E as E; exact (IH E).
Qed.

(** A pattern cannot straddle the border of a text that goes on with a
    character the pattern does not have. *)
Lemma startswith_app_absent (p s rest : string) (c : ascii) :
  has_char c p = false ->
  startswith p (s ++ String c rest) = startswith p s.
Proof.
  unfold startswith; revert p; induction s as [|y s IH]; intros [|x p] A;
    cbn [append prefix]; try reflexivity.
  - cbn [has_char] in A; apply orb_false_iff in A as [A _].
    destruct (ascii_dec x c) as [->|N]; [|reflexivity].
    now rewrite Ascii.eqb_refl in A.
  - cbn [has_char] in A; apply orb_false_iff in A as [_ A].
    destruct (ascii_dec x y); [apply IH, A | reflexivity].
Qed.

Lemma contains_app_absent (p s rest : string) (c : ascii) :
  has_char c p = false ->
  contains p (String c rest) = false ->
  contains p (s ++ String c rest) = contains p s.
Proof.
  intros A R; induction s as [|y s IH].
  - change ("" ++ String c rest) with (String c rest); rewrite R.
    destruct p as [|x p]; [discriminate R | reflexivity].
  - change (String y s ++ String c rest) with (String y (s ++ String c rest)).
    cbn [contains]; rewrite IH.
    change (String y (s ++ String c rest)) with (String y s ++ String c rest).
    now rewrite startswith_app_absent.
Qed.






Section TrendTemplate.
Context `{Builtins}.



End TrendTemplate.


(** ** The claims on [app.py] *)




Lemma jobs_of_truthy_success (raw_response : App.FirecrawlResponse) :
  truthy (App.jobs_of raw_response) = true -> App.success raw_response = true.
Proof.
  unfold App.jobs_of; destruct (App.success raw_response); [reflexivity | discriminate].
Qed.

(** C2, as amended.  Whenever [agent.run] is called, the response of the
    extraction had its success flag set, and the records embedded in the
    prompt are the value found under [job_postings] (respectively
    [industry_trends]) in the payload of that response, as received: no
    schema-shape check stands between the payload and the prompt. *)
Theorem synthesis_prompt_embeds_payload_as_received :
  forall (B : Builtins)
         (firecrawl_extract : list string -> string -> schema -> outcome App.FirecrawlResponse)
         (agent_run : string -> outcome string)
         (job_title location : string) (experience_years : pyval)
         (skills : list string) (job_category prompt : string),
    (In (Run prompt)
        (trace (App.find_jobs firecrawl_extract agent_run job_title location
                  experience_years skills)) ->
     exists raw_response,
       firecrawl_extract (job_urls job_title location)
         (job_extraction_prompt job_title location experience_years (join ", " skills))
         ExtractSchema = Returned raw_response
       /\ App.success raw_response = true
       /\ prompt =
          job_analysis_prompt
            (dict_get (App.data raw_response) "job_postings" (PList []))
            job_title location experience_years (join ", " skills))
    /\
    (In (Run prompt)
        (trace (App.get_industry_trends firecrawl_extract agent_run job_category)) ->
     exists raw_response,
       firecrawl_extract (trend_urls job_category)
         (trend_extraction_prompt job_category) IndustryTrendsSchema
       = Returned raw_response
       /\ App.success raw_response = true
       /\ prompt =
          trend_analysis_prompt job_category
            (dict_get (App.data raw_response) "industry_trends" (PList []))).
Proof.
  intros B fe ar jt loc ey sk jc prompt; split; unfold trace.
  - pose proof (find_jobs_exec fe ar jt loc ey sk) as X; cbv zeta in X; rewrite X.
    destruct (fe _ _ _) as [r|e] eqn:E; [| cbn [snd In]; intros [D|[]]; discriminate].
    destruct (truthy (App.jobs_of r)) eqn:T; [| cbn [snd In]; intros [D|[]]; discriminate].
    pose proof (jobs_of_truthy_success r T) as S.
    intros I; exists r; repeat split; [exact S|].
    assert (J : App.jobs_of r = dict_get (App.data r) "job_postings" (PList []))
      by (unfold App.jobs_of; now rewrite S).
    rewrite <- J.
    destruct (ar _); cbn [snd In] in I; destruct I as [D|[D|[]]];
      first [discriminate | injection D as <-; reflexivity].
  - pose proof (get_industry_trends_exec fe ar jc) as X; cbv zeta in X; rewrite X.
    destruct (fe _ _ _) as [r|e] eqn:E; [| cbn [snd In]; intros [D|[]]; discriminate].
    destruct (App.success r) eqn:S; [| cbn [snd In]; intros [D|[]]; discriminate].
    destruct (truthy (App.industries_of r)) eqn:T; [| cbn [snd In]; intros [D|[]]; discriminate].
    intros I; exists r; repeat split; [exact S|].
    destruct (ar _); cbn [snd In] in I; destruct I as [D|[D|[]]];
      first [discriminate | injection D as <-; reflexivity].
Qed.

(** C2 at the scenario with one well-formed posting. *)
Lemma synthesis_prompt_embeds_payload_as_received_witness :
  exists raw_response,
    App.success raw_response = true
    /\ @job_analysis_prompt ascii_text (PList [Sample.full_posting]) Sample.job_title
         Sample.location Sample.experience_years (join ", " Sample.skills)
       = @job_analysis_prompt ascii_text
           (dict_get (App.data raw_response) "job_postings" (PList []))
           Sample.job_title Sample.location Sample.experience_years
           (join ", " Sample.skills).
Proof.
  destruct (proj1 (synthesis_prompt_embeds_payload_as_received ascii_text
              (Sample.extract_returns
                 (Sample.response true [("job_postings", PList [Sample.full_posting])]))
              (Sample.run_returns "report")
              Sample.job_title Sample.location Sample.experience_years
              Sample.skills Sample.job_category
              (@job_analysis_prompt ascii_text (PList [Sample.full_posting])
                 Sample.job_title Sample.location Sample.experience_years
                 (join ", " Sample.skills)))
              (or_intror (or_introl eq_refl))) as (r & _ & S & P).
  exists r; split; [exact S | exact P].
Defined.

(** C2 as stated fails: a record whose [region] is a number does not have
    the shape of [NestedModel1], and it is passed to the synthesis step all
    the same; so is a malformed trend record. *)
Lemma unvalidated_record_reaches_synthesis :
  is_job_postings (PList [Sample.odd_posting]) = false
  /\ is_industry_trends (PList [Sample.odd_trend]) = false
  /\ (exists prompt,
        In (Run prompt)
          (trace (@App.find_jobs ascii_text
                    (Sample.extract_returns
                       (Sample.response true
                          [("job_postings", PList [Sample.odd_posting])]))
                    (Sample.run_returns "report")
                    Sample.job_title Sample.location Sample.experience_years
                    Sample.skills))
        /\ contains (@py_repr ascii_text Sample.odd_posting) prompt = true)
  /\ (exists prompt,
        In (Run prompt)
          (trace (@App.get_industry_trends ascii_text
                    (Sample.extract_returns
                       (Sample.response true
                          [("industry_trends", PList [Sample.odd_trend])]))
                    (Sample.run_returns "report") Sample.job_category))
        /\ contains (@py_repr ascii_text Sample.odd_trend) prompt = true).
Proof.
  split; [reflexivity|]; split; [reflexivity|]; split.
  - eexists; split; [right; left; reflexivity | vm_compute; reflexivity].
  - eexists; split; [right; left; reflexivity | vm_compute; reflexivity].
Qed.

(** ** The messages *)

Lemma find_jobs_error_has_error (e : string) :
  contains "error" (find_jobs_error e) = true.
Proof.
  apply contains_spec; unfold find_jobs_error.
  apply occurs_app_l, occurs_by_contains; reflexivity.
Qed.

Lemma find_jobs_error_has_description (e : string) :
  contains e (find_jobs_error e) = true.
Proof.
  apply contains_spec; unfold find_jobs_error.
  apply occurs_app_r, occurs_app_l, occurs_refl.
Qed.

Lemma industry_trends_error_has_error (e : string) :
  contains "error" (industry_trends_error e) = true.
Proof.
  apply contains_spec; unfold industry_trends_error.
  apply occurs_app_l, occurs_by_contains; reflexivity.
Qed.

Lemma industry_trends_error_has_description (e : string) :
  contains e (industry_trends_error e) = true.
Proof.
  apply contains_spec; unfold industry_trends_error.
  apply occurs_app_r, occurs_app_l, occurs_refl.
Qed.

Lemma find_jobs_error_is_not_no_job_listing (e : string) :
  find_jobs_error e <> no_job_listing.
Proof. unfold find_jobs_error, no_job_listing; cbn [append]; discriminate. Qed.

Lemma dict_get_missing (d : dict) (key : string) (default : pyval) :
  dict_has d key = false -> dict_get d key default = default.
Proof.
  induction d as [|[k v] d IH]; cbn [dict_has dict_get]; [reflexivity|].
  destruct (String.eqb k key); [discriminate | exact IH].
Qed.

(** C3, as amended.  When the extraction call of [find_jobs] raises, the
    exception does not leave [find_jobs]: its handler returns the error
    message that embeds the description.  That message is not the
    no-listing message; nothing is normalized and [agent.run] is not
    called. *)
Theorem extraction_exception_becomes_error_message :
  forall (B : Builtins)
         (firecrawl_extract : list string -> string -> schema -> outcome App.FirecrawlResponse)
         (agent_run : string -> outcome string)
         (job_title location : string) (experience_years : pyval)
         (skills : list string) (e : string),
    firecrawl_extract (job_urls job_title location)
      (job_extraction_prompt job_title location experience_years (join ", " skills))
      ExtractSchema = Raised e ->
    result (App.find_jobs firecrawl_extract agent_run job_title location
              experience_years skills) = Returned (find_jobs_error e)
    /\ runs (trace (App.find_jobs firecrawl_extract agent_run job_title location
                      experience_years skills)) = []
    /\ find_jobs_error e <> no_job_listing.
Proof.
  intros B fe ar jt loc ey sk e E.
  pose proof (find_jobs_exec fe ar jt loc ey sk) as X; cbv zeta in X.
  rewrite E in X; unfold result, trace; rewrite X.
  repeat split; apply find_jobs_error_is_not_no_job_listing.
Qed.

(** C3 at a connection failure. *)
Lemma extraction_exception_becomes_error_message_witness :
  result (@App.find_jobs ascii_text (Sample.extract_raises "connection timed out")
            (Sample.run_returns "report")
            Sample.job_title Sample.location Sample.experience_years Sample.skills)
  = Returned (find_jobs_error "connection timed out").
Proof.
  exact (proj1 (extraction_exception_becomes_error_message ascii_text
                  (Sample.extract_raises "connection timed out")
                  (Sample.run_returns "report")
                  Sample.job_title Sample.location Sample.experience_years
                  Sample.skills "connection timed out" eq_refl)).
Defined.

(** C3 as stated fails: when the extraction raises, [find_jobs] does not
    end as it does on zero records; it returns the error message. *)
Lemma extraction_failure_is_not_an_empty_result :
  result (@App.find_jobs ascii_text (Sample.extract_raises "connection timed out")
            (Sample.run_returns "report")
            Sample.job_title Sample.location Sample.experience_years Sample.skills)
  <> Returned no_job_listing
  /\ result (@App.find_jobs ascii_text (Sample.extract_raises "connection timed out")
               (Sample.run_returns "report")
               Sample.job_title Sample.location Sample.experience_years Sample.skills)
     <> result (@App.find_jobs ascii_text
                  (Sample.extract_returns (Sample.response false []))
                  (Sample.run_returns "report")
                  Sample.job_title Sample.location Sample.experience_years
                  Sample.skills).
Proof. split; vm_compute; discriminate. Qed.

(** C4.  [find_jobs] and [get_industry_trends] always return a string,
    whatever the two services answer; when the extraction call or the
    synthesis call raises, the returned string holds "error" and the
    description of the exception. *)
Theorem remote_exceptions_are_returned_as_text :
  forall (B : Builtins)
         (firecrawl_extract : list string -> string -> schema -> outcome App.FirecrawlResponse)
         (agent_run : string -> outcome string)
         (job_title location : string) (experience_years : pyval)
         (skills : list string) (job_category : string),
    let jobs_run :=
      App.find_jobs firecrawl_extract agent_run job_title location experience_years
        skills in
    let trends_run := App.get_industry_trends firecrawl_extract agent_run job_category in
    let raised_text (text e : string) :=
      contains "error" text = true /\ contains e text = true in
    (exists text, result jobs_run = Returned text)
    /\ (exists text, result trends_run = Returned text)
    /\ (forall e,
           firecrawl_extract (job_urls job_title location)
             (job_extraction_prompt job_title location experience_years
                (join ", " skills)) ExtractSchema = Raised e ->
           exists text, result jobs_run = Returned text /\ raised_text text e)
    /\ (forall raw_response e,
           firecrawl_extract (job_urls job_title location)
             (job_extraction_prompt job_title location experience_years
                (join ", " skills)) ExtractSchema = Returned raw_response ->
           truthy (App.jobs_of raw_response) = true ->
           agent_run (job_analysis_prompt (App.jobs_of raw_response) job_title location
                        experience_years (join ", " skills)) = Raised e ->
           exists text, result jobs_run = Returned text /\ raised_text text e)
    /\ (forall e,
           firecrawl_extract (trend_urls job_category)
             (trend_extraction_prompt job_category) IndustryTrendsSchema = Raised e ->
           exists text, result trends_run = Returned text /\ raised_text text e)
    /\ (forall raw_response e,
           firecrawl_extract (trend_urls job_category)
             (trend_extraction_prompt job_category) IndustryTrendsSchema
           = Returned raw_response ->
           App.success raw_response = true ->
           truthy (App.industries_of raw_response) = true ->
           agent_run (trend_analysis_prompt job_category
                        (App.industries_of raw_response)) = Raised e ->
           exists text, result trends_run = Returned text /\ raised_text text e).
Proof.
  intros B fe ar jt loc ey sk jc jobs_run trends_run raised_text.
  pose proof (find_jobs_exec fe ar jt loc ey sk) as X; cbv zeta in X.
  pose proof (get_industry_trends_exec fe ar jc) as Y; cbv zeta in Y.
  subst jobs_run trends_run raised_text; unfold result; rewrite X, Y; clear X Y.
  repeat apply conj.
  - destruct (fe _ _ _) as [r|e]; [| eexists; reflexivity].
    destruct (truthy _); [| eexists; reflexivity].
    destruct (ar _); eexists; reflexivity.
  - destruct (fe _ _ _) as [r|e]; [| eexists; reflexivity].
    destruct (App.success r); [| eexists; reflexivity].
    destruct (truthy _); [| eexists; reflexivity].
    destruct (ar _); eexists; reflexivity.
  - intros e E; rewrite E; eexists; split; [reflexivity|].
    split; [apply find_jobs_error_has_error | apply find_jobs_error_has_description].
  - intros r e E T A; rewrite E, T, A; eexists; split; [reflexivity|].
    split; [apply find_jobs_error_has_error | apply find_jobs_error_has_description].
  - intros e E; rewrite E; eexists; split; [reflexivity|].
    split; [apply industry_trends_error_has_error
           | apply industry_trends_error_has_description].
  - intros r e E S T A; rewrite E, S, T, A; eexists; split; [reflexivity|].
    split; [apply industry_trends_error_has_error
           | apply industry_trends_error_has_description].
Qed.

(** C4 when the synthesis call raises on a well-formed posting. *)
Lemma remote_exceptions_are_returned_as_text_witness :
  exists text,
    result (@App.find_jobs ascii_text
              (Sample.extract_returns
                 (Sample.response true [("job_postings", PList [Sample.full_posting])]))
              (Sample.run_raises "rate limit exceeded")
              Sample.job_title Sample.location Sample.experience_years Sample.skills)
    = Returned text
    /\ contains "error" text = true
    /\ contains "rate limit exceeded" text = true.
Proof.
  pose proof (remote_exceptions_are_returned_as_text ascii_text
                (Sample.extract_returns
                   (Sample.response true [("job_postings", PList [Sample.full_posting])]))
                (Sample.run_raises "rate limit exceeded")
                Sample.job_title Sample.location Sample.experience_years
                Sample.skills Sample.job_category) as T.
  cbv zeta in T; destruct T as (_ & _ & _ & T & _).
  exact (T (Sample.response true [("job_postings", PList [Sample.full_posting])])
           "rate limit exceeded" eq_refl eq_refl eq_refl).
Defined.

(** C5, as amended.  When the record sequence is falsy, [find_jobs]
    returns the fixed no-listing message.  [get_industry_trends] returns
    the no-trends-data message for its category when the response
    succeeded and the sequence is falsy, and the no-trend-data message for
    its category when the response did not succeed.  In all three cases
    [agent.run] is not called.  A payload without the expected key gives a
    falsy sequence. *)
Theorem empty_records_skip_synthesis :
  forall (B : Builtins)
         (firecrawl_extract : list string -> string -> schema -> outcome App.FirecrawlResponse)
         (agent_run : string -> outcome string)
         (job_title location : string) (experience_years : pyval)
         (skills : list string) (job_category : string),
    let jobs_run :=
      App.find_jobs firecrawl_extract agent_run job_title location experience_years
        skills in
    let trends_run := App.get_industry_trends firecrawl_extract agent_run job_category in
    (forall raw_response,
        firecrawl_extract (job_urls job_title location)
          (job_extraction_prompt job_title location experience_years
             (join ", " skills)) ExtractSchema = Returned raw_response ->
        truthy (App.jobs_of raw_response) = false ->
        result jobs_run = Returned no_job_listing /\ runs (trace jobs_run) = [])
    /\ (forall raw_response,
           firecrawl_extract (trend_urls job_category)
             (trend_extraction_prompt job_category) IndustryTrendsSchema
           = Returned raw_response ->
           App.success raw_response = true ->
           truthy (App.industries_of raw_response) = false ->
           result trends_run = Returned (no_trends_data job_category)
           /\ runs (trace trends_run) = [])
    /\ (forall raw_response,
           firecrawl_extract (trend_urls job_category)
             (trend_extraction_prompt job_category) IndustryTrendsSchema
           = Returned raw_response ->
           App.success raw_response = false ->
           result trends_run = Returned (no_trend_data job_category)
           /\ runs (trace trends_run) = [])
    /\ (forall raw_response,
           dict_has (App.data raw_response) "job_postings" = false ->
           truthy (App.jobs_of raw_response) = false)
    /\ (forall raw_response,
           dict_has (App.data raw_response) "industry_trends" = false ->
           truthy (App.industries_of raw_response) = false).
Proof.
  intros B fe ar jt loc ey sk jc jobs_run trends_run.
  pose proof (find_jobs_exec fe ar jt loc ey sk) as X; cbv zeta in X.
  pose proof (get_industry_trends_exec fe ar jc) as Y; cbv zeta in Y.
  subst jobs_run trends_run; unfold result, trace; rewrite X, Y; clear X Y.
  repeat apply conj.
  - intros r E T; rewrite E, T; split; reflexivity.
  - intros r E S T; rewrite E, S, T; split; reflexivity.
  - intros r E S; rewrite E, S; split; reflexivity.
  - intros r D; unfold App.jobs_of; destruct (App.success r); [|reflexivity].
    now rewrite dict_get_missing.
  - intros r D; unfold App.industries_of; now rewrite dict_get_missing.
Qed.

(** C5 at scenario B: the service answers [success: true, data: {}]. *)
Lemma empty_records_skip_synthesis_witness :
  result (@App.find_jobs ascii_text
            (Sample.extract_returns (Sample.response true []))
            (Sample.run_returns "report")
            Sample.job_title Sample.location Sample.experience_years Sample.skills)
  = Returned no_job_listing
  /\ runs (trace (@App.find_jobs ascii_text
                    (Sample.extract_returns (Sample.response true []))
                    (Sample.run_returns "report")
                    Sample.job_title Sample.location Sample.experience_years
                    Sample.skills)) = [].
Proof.
  pose proof (empty_records_skip_synthesis ascii_text
                (Sample.extract_returns (Sample.response true []))
                (Sample.run_returns "report")
                Sample.job_title Sample.location Sample.experience_years
                Sample.skills Sample.job_category) as T.
  cbv zeta in T; destruct T as (T & _).
  exact (T (Sample.response true []) eq_refl eq_refl).
Defined.

(** C5 as stated fails for [get_industry_trends]: there is no one fixed
    message.  For the same category the two empty outcomes return two
    different strings, and for two categories the same empty outcome
    returns two different strings. *)
Lemma trend_fallback_is_not_one_fixed_message :
  let run response category :=
    result (@App.get_industry_trends ascii_text (Sample.extract_returns response)
              (Sample.run_returns "report") category) in
  truthy (App.industries_of (Sample.response true [])) = false
  /\ run (Sample.response true []) "Marketing"
     <> run (Sample.response false []) "Marketing"
  /\ run (Sample.response true []) "Marketing"
     <> run (Sample.response true []) "Finance".
Proof. repeat split; vm_compute; discriminate. Qed.

(** ** Normalization *)

Section JobHuntRuns.
Context `{Builtins}.

(** Processing the raw response logs nothing. *)
Lemma jobs_of_pure (raw_response : pyval) :
  exists o, forall log, JobHunt.jobs_of raw_response log = (o, log).
Proof.
  unfold JobHunt.jobs_of.
  destruct (JobHunt.succeeded raw_response) as [r|]; [| now eexists].
  unfold JobHunt.payload_get, JobHunt.subscript, bind.
  destruct (dict_has r "data"); [| now eexists].
  unfold ret; destruct (dict_get r "data" PNone); now eexists.
Qed.

Lemma succeeded_false (r : dict) :
  truthy (dict_get r "success" PNone) = false -> JobHunt.succeeded (PDict r) = None.
Proof. intros T; unfold JobHunt.succeeded; now rewrite T. Qed.

Lemma dict_get_present (d : dict) (key : string) (default : pyval) :
  dict_has d key = true -> dict_get d key default = dict_get d key PNone.
Proof.
  induction d as [|[k v] d IH]; cbn [dict_has dict_get]; [discriminate|].
  destruct (String.eqb k key); [reflexivity | exact IH].
Qed.

End JobHuntRuns.

(** C6.  A response whose success flag is false gives the empty record
    sequence, whatever its payload holds: in [app.py] by the attribute
    [success], in [job-hunt.py] by the test
    [isinstance(raw_response, dict) and raw_response.get('success')]. *)
Theorem failed_extraction_gives_no_records :
  forall (B : Builtins),
    (forall raw_response : App.FirecrawlResponse,
        App.success raw_response = false -> App.jobs_of raw_response = PList [])
    /\ (forall (r : dict) (log : list event),
           truthy (dict_get r "success" PNone) = false ->
           JobHunt.jobs_of (PDict r) log = (Returned (PList []), log))
    /\ (forall (raw_response : pyval) (log : list event),
           JobHunt.succeeded raw_response = None ->
           JobHunt.jobs_of raw_response log = (Returned (PList []), log)).
Proof.
  intros B; repeat apply conj.
  - intros r S; unfold App.jobs_of; now rewrite S.
  - intros r log T; unfold JobHunt.jobs_of; now rewrite (succeeded_false r T).
  - intros raw log S; unfold JobHunt.jobs_of; now rewrite S.
Qed.

(** C6 on a failed response that still carries a posting. *)
Lemma failed_extraction_gives_no_records_witness :
  App.jobs_of (Sample.response false [("job_postings", PList [Sample.full_posting])])
  = PList []
  /\ @JobHunt.jobs_of ascii_text
       (Sample.response_dict false
          (PDict [("job_postings", PList [Sample.full_posting])])) []
     = (Returned (PList []), []).
Proof.
  destruct (failed_extraction_gives_no_records ascii_text) as (A & J & _); split.
  - apply A; reflexivity.
  - apply J; reflexivity.
Defined.

(** C7, as amended.  The query builder gives exactly three URLs for a job
    search and exactly two for a trend lookup.  Each job-search URL holds
    the lower-cased, hyphen-joined job title and location; the second
    trend URL (glassdoor) holds the lower-cased, hyphen-joined category;
    the first trend URL (payscale) holds the hyphen-joined category with
    its letter case kept. *)
Theorem query_urls :
  forall (B : Builtins) (job_title location job_category : string),
    List.length (job_urls job_title location) = 3
    /\ List.length (trend_urls job_category) = 2
    /\ Forall (fun url => contains (url_form job_title) url = true
                          /\ contains (url_form location) url = true)
         (job_urls job_title location)
    /\ (exists payscale glassdoor,
           trend_urls job_category = [payscale; glassdoor]
           /\ contains (replace " " "-" job_category) payscale = true
           /\ contains (url_form job_category) glassdoor = true).
Proof.
  intros B jt loc jc; unfold job_urls, trend_urls, url_form.
  split; [reflexivity|]; split; [reflexivity|]; split.
  - repeat constructor; apply contains_spec;
      first [ apply occurs_app_r, occurs_app_l, occurs_refl
            | apply occurs_app_r, occurs_app_r, occurs_app_r, occurs_refl ].
  - do 2 eexists; split; [reflexivity|]; split; apply contains_spec;
      apply occurs_app_r, occurs_app_l, occurs_refl.
Qed.

(** C7 as stated fails for the payscale URL: it keeps the capital letter
    of the category, so the lower-cased form does not occur in it. *)
Lemma payscale_url_keeps_case :
  @url_form ascii_text "Marketing" = "marketing"
  /\ nth 0 (@trend_urls ascii_text "Marketing") ""
     = "https://www.payscale.com/research/US/Job=Marketing/Salary"
  /\ contains (@url_form ascii_text "Marketing")
       (nth 0 (@trend_urls ascii_text "Marketing") "") = false.
Proof. repeat split; vm_compute; reflexivity. Qed.

(** C8, as amended.  Normalization accepts partial records: when the
    response succeeded, the list found under [job_postings] is returned as
    it is, every record unchanged and in order; a missing field stays
    missing and no record is rejected. *)
Theorem records_are_kept_as_received :
  forall (B : Builtins) (records : list pyval),
    (forall raw_response : App.FirecrawlResponse,
        App.success raw_response = true ->
        dict_has (App.data raw_response) "job_postings" = true ->
        dict_get (App.data raw_response) "job_postings" PNone = PList records ->
        App.jobs_of raw_response = PList records)
    /\ (forall (r payload : dict) (log : list event),
           truthy (dict_get r "success" PNone) = true ->
           dict_has r "data" = true ->
           dict_get r "data" PNone = PDict payload ->
           dict_has payload "job_postings" = true ->
           dict_get payload "job_postings" PNone = PList records ->
           JobHunt.jobs_of (PDict r) log = (Returned (PList records), log)).
Proof.
  intros B records; split.
  - intros r S D G; unfold App.jobs_of; rewrite S.
    now rewrite (dict_get_present _ _ _ D).
  - intros r payload log T D G D' G'.
    unfold JobHunt.jobs_of, JobHunt.succeeded; rewrite T.
    unfold JobHunt.payload_get, JobHunt.subscript, bind; rewrite D.
    unfold ret; rewrite G; cbn [JobHunt.method_get]; unfold ret.
    now rewrite (dict_get_present _ _ _ D'), G'.
Qed.

(** C8 on a posting that has its [region] only. *)
Lemma records_are_kept_as_received_witness :
  App.jobs_of (Sample.response true [("job_postings", PList [Sample.partial_posting])])
  = PList [Sample.partial_posting]
  /\ @JobHunt.jobs_of ascii_text
       (Sample.response_dict true
          (PDict [("job_postings", PList [Sample.partial_posting])])) []
     = (Returned (PList [Sample.partial_posting]), []).
Proof.
  destruct (records_are_kept_as_received ascii_text [Sample.partial_posting])
    as (A & J); split.
  - exact (A (Sample.response true [("job_postings", PList [Sample.partial_posting])])
             eq_refl eq_refl eq_refl).
  - apply (J _ [("job_postings", PList [Sample.partial_posting])] []); reflexivity.
Defined.

(** C8 as stated fails: a posting that has its [region] only comes out of
    normalization with its other four fields still absent; nothing is
    filled in. *)
Lemma missing_fields_are_not_filled :
  let jobs :=
    App.jobs_of
      (Sample.response true [("job_postings", PList [Sample.partial_posting])]) in
  jobs = PList [PDict [("region", PStr "Pune")]]
  /\ forallb all_fields_set (records jobs) = false
  /\ @JobHunt.jobs_of ascii_text
       (Sample.response_dict true
          (PDict [("job_postings", PList [Sample.partial_posting])])) []
     = (Returned (PList [PDict [("region", PStr "Pune")]]), []).
Proof. repeat split. Qed.

(** ** The fallback and error messages *)

(** The marker occurs in an error message exactly when it occurs in the
    description the message embeds. *)
Lemma marker_in_find_jobs_error (e : string) :
  JobHunt.looks_like_error (find_jobs_error e) = contains JobHunt.error_marker e.
Proof.
  unfold JobHunt.looks_like_error, find_jobs_error.
  transitivity (contains JobHunt.error_marker
                  (e ++ nl ++ nl ++ "Please try again with different search parameters or check if the job sites are supported by Firecrawl.")).
  - reflexivity.
  - apply contains_app_absent; reflexivity.
Qed.

Lemma marker_in_industry_trends_error (e : string) :
  JobHunt.looks_like_error (industry_trends_error e) = contains JobHunt.error_marker e.
Proof.
  unfold JobHunt.looks_like_error, industry_trends_error.
  transitivity (contains JobHunt.error_marker
                  (e ++ nl ++ nl ++ "Please try again with a different industry category or check if the sites are supported by Firecrawl. ")).
  - reflexivity.
  - apply contains_app_absent; reflexivity.
Qed.

(** ** The runs of [job-hunt.py] *)

Section JobHuntMethods.
Context `{Builtins}.
Variable firecrawl_extract : list string -> string -> schema -> outcome pyval.
Variable agent_run : string -> outcome string.

Ltac step_run :=
  cbv beta iota zeta delta
    [exec result trace JobHunt.find_jobs JobHunt.get_industry_trends try_except bind
     JobHunt.extract JobHunt.run perform ret raise app fst snd negb].

(** A run in which the extraction call raises. *)
Lemma jobhunt_find_jobs_extract_raises (job_title location : string)
    (experience_years : pyval) (skills : list string) (e : string) (log : list event) :
  firecrawl_extract (job_urls job_title location)
    (job_extraction_prompt job_title location experience_years (join ", " skills))
    ExtractSchema = Raised e ->
  fst (JobHunt.find_jobs firecrawl_extract agent_run job_title location
         experience_years skills log) = Returned (find_jobs_error e).
Proof. intros E; step_run; rewrite E; reflexivity. Qed.

(** A run in which the synthesis call raises. *)
Lemma jobhunt_find_jobs_run_raises (job_title location : string)
    (experience_years : pyval) (skills : list string) (raw_response jobs : pyval)
    (e : string) (log : list event) :
  firecrawl_extract (job_urls job_title location)
    (job_extraction_prompt job_title location experience_years (join ", " skills))
    ExtractSchema = Returned raw_response ->
  (forall log', JobHunt.jobs_of raw_response log' = (Returned jobs, log')) ->
  truthy jobs = true ->
  agent_run (job_analysis_prompt jobs job_title location experience_years
               (join ", " skills)) = Raised e ->
  fst (JobHunt.find_jobs firecrawl_extract agent_run job_title location
         experience_years skills log) = Returned (find_jobs_error e).
Proof. intros E J T A; step_run; rewrite E, J, T, A; reflexivity. Qed.

Lemma jobhunt_trends_extract_raises (job_category e : string) (log : list event) :
  firecrawl_extract (trend_urls job_category) (trend_extraction_prompt job_category)
    IndustryTrendsSchema = Raised e ->
  fst (JobHunt.get_industry_trends firecrawl_extract agent_run job_category log)
  = Returned (industry_trends_error e).
Proof. intros E; step_run; rewrite E; reflexivity. Qed.

Lemma jobhunt_trends_run_raises (job_category : string) (raw_response : pyval)
    (r : dict) (industries : pyval) (e : string) (log : list event) :
  firecrawl_extract (trend_urls job_category) (trend_extraction_prompt job_category)
    IndustryTrendsSchema = Returned raw_response ->
  JobHunt.succeeded raw_response = Some r ->
  (forall log', JobHunt.payload_get r "industry_trends" log' = (Returned industries, log')) ->
  truthy industries = true ->
  agent_run (trend_analysis_prompt job_category industries) = Raised e ->
  fst (JobHunt.get_industry_trends firecrawl_extract agent_run job_category log)
  = Returned (industry_trends_error e).
Proof. intros E S P T A; step_run; rewrite E, S, P, T, A; reflexivity. Qed.

End JobHuntMethods.

(** C9, as amended.  In [job-hunt.py], when the extraction call or the
    synthesis call raises, [find_jobs] returns a string that begins with
    the misspelled "An error occured", and [get_industry_trends] one that
    begins with "An error occurerd".  The text around the embedded
    description does not hold "An error occurred": the test by which
    [main] detects an error succeeds on the returned string exactly when
    the description of the exception itself holds "An error occurred". *)
Theorem misspelled_error_messages :
  forall (B : Builtins)
         (firecrawl_extract : list string -> string -> schema -> outcome pyval)
         (agent_run : string -> outcome string)
         (job_title location : string) (experience_years : pyval)
         (skills : list string) (job_category e : string),
    let jobs_result :=
      result (JobHunt.find_jobs firecrawl_extract agent_run job_title location
                experience_years skills) in
    let trends_result :=
      result (JobHunt.get_industry_trends firecrawl_extract agent_run job_category) in
    startswith "An error occured" (find_jobs_error e) = true
    /\ startswith "An error occurerd" (industry_trends_error e) = true
    /\ JobHunt.looks_like_error (find_jobs_error e) = contains JobHunt.error_marker e
    /\ JobHunt.looks_like_error (industry_trends_error e)
       = contains JobHunt.error_marker e
    /\ (firecrawl_extract (job_urls job_title location)
          (job_extraction_prompt job_title location experience_years
             (join ", " skills)) ExtractSchema = Raised e ->
        jobs_result = Returned (find_jobs_error e))
    /\ (forall raw_response jobs,
           firecrawl_extract (job_urls job_title location)
             (job_extraction_prompt job_title location experience_years
                (join ", " skills)) ExtractSchema = Returned raw_response ->
           (forall log, JobHunt.jobs_of raw_response log = (Returned jobs, log)) ->
           truthy jobs = true ->
           agent_run (job_analysis_prompt jobs job_title location experience_years
                        (join ", " skills)) = Raised e ->
           jobs_result = Returned (find_jobs_error e))
    /\ (firecrawl_extract (trend_urls job_category)
          (trend_extraction_prompt job_category) IndustryTrendsSchema = Raised e ->
        trends_result = Returned (industry_trends_error e))
    /\ (forall raw_response r industries,
           firecrawl_extract (trend_urls job_category)
             (trend_extraction_prompt job_category) IndustryTrendsSchema
           = Returned raw_response ->
           JobHunt.succeeded raw_response = Some r ->
           (forall log, JobHunt.payload_get r "industry_trends" log
                        = (Returned industries, log)) ->
           truthy industries = true ->
           agent_run (trend_analysis_prompt job_category industries) = Raised e ->
           trends_result = Returned (industry_trends_error e)).
Proof.
  intros B fe ar jt loc ey sk jc e jobs_result trends_result.
  subst jobs_result trends_result; unfold result, exec.
  repeat apply conj.
  - reflexivity.
  - reflexivity.
  - apply marker_in_find_jobs_error.
  - apply marker_in_industry_trends_error.
  - apply jobhunt_find_jobs_extract_raises.
  - intros raw jobs; apply jobhunt_find_jobs_run_raises.
  - apply jobhunt_trends_extract_raises.
  - intros raw r industries; apply jobhunt_trends_run_raises.
Qed.

(** C9 at a connection failure: the returned string is not taken for an
    error by [main]. *)
Lemma misspelled_error_messages_witness :
  result (@JobHunt.find_jobs ascii_text (Sample.extract_raises "connection timed out")
            (Sample.run_returns "report")
            Sample.job_title Sample.location Sample.experience_years Sample.skills)
  = Returned (find_jobs_error "connection timed out")
  /\ JobHunt.looks_like_error (find_jobs_error "connection timed out") = false.
Proof.
  pose proof (misspelled_error_messages ascii_text
                (Sample.extract_raises "connection timed out")
                (Sample.run_returns "report")
                Sample.job_title Sample.location Sample.experience_years
                Sample.skills Sample.job_category "connection timed out") as T.
  cbv zeta in T; destruct T as (_ & _ & M & _ & R & _); split.
  - exact (R eq_refl).
  - rewrite M; reflexivity.
Defined.

(** C9 as stated fails: an exception whose own description holds
    "An error occurred" makes both returned strings hold it, and [main]
    then takes its error branch and shows the string with [st.error]. *)
Lemma description_can_carry_the_marker :
  let e := "An error occurred while scraping" in
  let jobs_run :=
    @JobHunt.find_jobs ascii_text (Sample.extract_raises e)
      (Sample.run_returns "report")
      Sample.job_title Sample.location Sample.experience_years Sample.skills in
  let trends_run :=
    @JobHunt.get_industry_trends ascii_text (Sample.extract_raises e)
      (Sample.run_returns "report") Sample.job_category in
  result jobs_run = Returned (find_jobs_error e)
  /\ contains "An error occurred" (find_jobs_error e) = true
  /\ result trends_run = Returned (industry_trends_error e)
  /\ contains "An error occurred" (industry_trends_error e) = true
  /\ trace (@JobHunt.main ascii_text (Sample.extract_raises e)
              (Sample.run_returns "report")
              Sample.job_title Sample.location Sample.experience_years Sample.skills
              Sample.job_category)
     = [Extract (@job_urls ascii_text Sample.job_title Sample.location)
          (@job_extraction_prompt ascii_text Sample.job_title Sample.location
             Sample.experience_years (join ", " Sample.skills)) ExtractSchema;
        Show (st_error (find_jobs_error e))].
Proof. repeat split; vm_compute; reflexivity. Qed.

(** C10.  In [get_industry_trends] the message returned when the success
    flag is false differs from the message returned when the response
    succeeded and the list is missing or empty.  Both embed the category
    of the caller, so two categories never get the same message, and the
    caller can tell the two empty outcomes apart. *)
Theorem trend_fallback_messages_differ :
  forall (B : Builtins)
         (firecrawl_extract : list string -> string -> schema -> outcome App.FirecrawlResponse)
         (agent_run : string -> outcome string)
         (job_category : string),
    let trends_run := App.get_industry_trends firecrawl_extract agent_run job_category in
    no_trend_data job_category <> no_trends_data job_category
    /\ contains job_category (no_trend_data job_category) = true
    /\ contains job_category (no_trends_data job_category) = true
    /\ (forall other, no_trend_data job_category = no_trend_data other ->
                      job_category = other)
    /\ (forall other, no_trends_data job_category = no_trends_data other ->
                      job_category = other)
    /\ (forall raw_response,
           firecrawl_extract (trend_urls job_category)
             (trend_extraction_prompt job_category) IndustryTrendsSchema
           = Returned raw_response ->
           App.success raw_response = false ->
           result trends_run = Returned (no_trend_data job_category))
    /\ (forall raw_response,
           firecrawl_extract (trend_urls job_category)
             (trend_extraction_prompt job_category) IndustryTrendsSchema
           = Returned raw_response ->
           App.success raw_response = true ->
           truthy (App.industries_of raw_response) = false ->
           result trends_run = Returned (no_trends_data job_category)).
Proof.
  intros B fe ar jc trends_run.
  pose proof (get_industry_trends_exec fe ar jc) as Y; cbv zeta in Y.
  subst trends_run; unfold result; rewrite Y; clear Y.
  repeat apply conj.
  - unfold no_trend_data, no_trends_data; cbn [append]; discriminate.
  - apply contains_spec, occurs_app_r, occurs_app_l, occurs_refl.
  - apply contains_spec, occurs_app_r, occurs_app_l, occurs_refl.
  - unfold no_trend_data; intros other E.
    apply append_inv_head in E; exact (append_inv_tail _ _ _ E).
  - unfold no_trends_data; intros other E.
    apply append_inv_head in E; exact (append_inv_tail _ _ _ E).
  - intros r E S; rewrite E, S; reflexivity.
  - intros r E S T; rewrite E, S, T; reflexivity.
Qed.

(** C10 for Marketing: the failed response and the empty response are
    answered with two different messages. *)
Lemma trend_fallback_messages_differ_witness :
  result (@App.get_industry_trends ascii_text
            (Sample.extract_returns (Sample.response false []))
            (Sample.run_returns "report") Sample.job_category)
  = Returned (no_trend_data Sample.job_category)
  /\ result (@App.get_industry_trends ascii_text
               (Sample.extract_returns (Sample.response true []))
               (Sample.run_returns "report") Sample.job_category)
     = Returned (no_trends_data Sample.job_category)
  /\ no_trend_data Sample.job_category <> no_trends_data Sample.job_category.
Proof.
  pose proof (trend_fallback_messages_differ ascii_text
                (Sample.extract_returns (Sample.response false []))
                (Sample.run_returns "report") Sample.job_category) as F.
  pose proof (trend_fallback_messages_differ ascii_text
                (Sample.extract_returns (Sample.response true []))
                (Sample.run_returns "report") Sample.job_category) as T.
  cbv zeta in F, T.
  destruct F as (D & _ & _ & _ & _ & F & _), T as (_ & _ & _ & _ & _ & _ & T).
  split; [|split].
  - exact (F (Sample.response false []) eq_refl eq_refl).
  - exact (T (Sample.response true []) eq_refl eq_refl eq_refl).
  - exact D.
Defined.

(** * Further facts on the two files *)

(** ** The calls a method makes *)

(** X1.  Whatever the two services answer, a run of [find_jobs] and a run
    of [get_industry_trends] of [app.py] make exactly one extraction
    request, first, with the URLs of the query and the schema of the
    method; after it they make no call or one synthesis call, and nothing
    is retried after an exception. *)
Theorem one_extraction_then_at_most_one_synthesis :
  forall (B : Builtins)
         (firecrawl_extract : list string -> string -> schema -> outcome App.FirecrawlResponse)
         (agent_run : string -> outcome string)
         (job_title location : string) (experience_years : pyval)
         (skills : list string) (job_category : string),
    (exists rest,
        trace (App.find_jobs firecrawl_extract agent_run job_title location
                 experience_years skills)
        = Extract (job_urls job_title location)
            (job_extraction_prompt job_title location experience_years
               (join ", " skills)) ExtractSchema :: rest
        /\ (rest = [] \/ exists prompt, rest = [Run prompt]))
    /\ (exists rest,
           trace (App.get_industry_trends firecrawl_extract agent_run job_category)
           = Extract (trend_urls job_category) (trend_extraction_prompt job_category)
               IndustryTrendsSchema :: rest
           /\ (rest = [] \/ exists prompt, rest = [Run prompt])).
Proof.
  intros B fe ar jt loc ey sk jc; unfold trace; split.
  - pose proof (find_jobs_exec fe ar jt loc ey sk) as X; cbv zeta in X; rewrite X.
    destruct (fe _ _ _) as [r|e]; [| eexists; split; [reflexivity | now left]].
    destruct (truthy _); [| eexists; split; [reflexivity | now left]].
    destruct (ar _); eexists; (split; [reflexivity | right; eexists; reflexivity]).
  - pose proof (get_industry_trends_exec fe ar jc) as X; cbv zeta in X; rewrite X.
    destruct (fe _ _ _) as [r|e]; [| eexists; split; [reflexivity | now left]].
    destruct (App.success r); [| eexists; split; [reflexivity | now left]].
    destruct (truthy _); [| eexists; split; [reflexivity | now left]].
    destruct (ar _); eexists; (split; [reflexivity | right; eexists; reflexivity]).
Qed.

(** X2.  When the record sequence is truthy and the synthesis call
    returns, both methods of [app.py] return the content of the synthesis
    unchanged. *)
Theorem synthesis_content_is_returned_unchanged :
  forall (B : Builtins)
         (firecrawl_extract : list string -> string -> schema -> outcome App.FirecrawlResponse)
         (agent_run : string -> outcome string)
         (job_title location : string) (experience_years : pyval)
         (skills : list string) (job_category content : string),
    (forall raw_response,
        firecrawl_extract (job_urls job_title location)
          (job_extraction_prompt job_title location experience_years
             (join ", " skills)) ExtractSchema = Returned raw_response ->
        truthy (App.jobs_of raw_response) = true ->
        agent_run (job_analysis_prompt (App.jobs_of raw_response) job_title location
                     experience_years (join ", " skills)) = Returned content ->
        result (App.find_jobs firecrawl_extract agent_run job_title location
                  experience_years skills) = Returned content)
    /\ (forall raw_response,
           firecrawl_extract (trend_urls job_category)
             (trend_extraction_prompt job_category) IndustryTrendsSchema
           = Returned raw_response ->
           App.success raw_response = true ->
           truthy (App.industries_of raw_response) = true ->
           agent_run (trend_analysis_prompt job_category
                        (App.industries_of raw_response)) = Returned content ->
           result (App.get_industry_trends firecrawl_extract agent_run job_category)
           = Returned content).
Proof.
  intros B fe ar jt loc ey sk jc content; unfold result; split.
  - intros r E T A.
    pose proof (find_jobs_exec fe ar jt loc ey sk) as X; cbv zeta in X.
    rewrite X, E, T, A; reflexivity.
  - intros r E S T A.
    pose proof (get_industry_trends_exec fe ar jc) as X; cbv zeta in X.
    rewrite X, E, S, T, A; reflexivity.
Qed.

(** X2 at scenario A, with one posting. *)
Lemma synthesis_content_is_returned_unchanged_witness :
  result (@App.find_jobs ascii_text
            (Sample.extract_returns
               (Sample.response true [("job_postings", PList [Sample.full_posting])]))
            (Sample.run_returns "report")
            Sample.job_title Sample.location Sample.experience_years Sample.skills)
  = Returned "report".
Proof.
  apply (proj1 (synthesis_content_is_returned_unchanged ascii_text
                  (Sample.extract_returns
                     (Sample.response true
                        [("job_postings", PList [Sample.full_posting])]))
                  (Sample.run_returns "report")
                  Sample.job_title Sample.location Sample.experience_years
                  Sample.skills Sample.job_category "report")
               (Sample.response true [("job_postings", PList [Sample.full_posting])]));
    reflexivity.
Defined.

(** ** What the requests hold *)

Section Criteria.
Context `{Builtins}.

Ltac find_line := cbn [In]; repeat first [left; reflexivity | right].

Ltac in_line line :=
  apply contains_spec, occurs_trans with (q := line);
  [ first [ apply occurs_app_r, occurs_app_l, occurs_refl
          | apply occurs_app_r, occurs_refl ]
  | apply occurs_lines; find_line ].

Lemma extraction_prompt_has_title (job_title location : string)
    (experience_years : pyval) (skills_string : string) :
  contains job_title
    (job_extraction_prompt job_title location experience_years skills_string) = true.
Proof.
  unfold job_extraction_prompt.
  in_line ("                    -Job Title: Should be related to " ++ job_title).
Qed.

Lemma extraction_prompt_has_location (job_title location : string)
    (experience_years : pyval) (skills_string : string) :
  contains location
    (job_extraction_prompt job_title location experience_years skills_string) = true.
Proof.
  unfold job_extraction_prompt.
  in_line ("                    -Location: " ++ location
           ++ " (include remote Jobs if available)").
Qed.

Lemma extraction_prompt_has_experience (job_title location : string)
    (experience_years : pyval) (skills_string : string) :
  contains (py_str experience_years)
    (job_extraction_prompt job_title location experience_years skills_string) = true.
Proof.
  unfold job_extraction_prompt.
  in_line ("                    -Experience: Around " ++ py_str experience_years
           ++ " years").
Qed.

Lemma extraction_prompt_has_skills (job_title location : string)
    (experience_years : pyval) (skills_string : string) :
  contains skills_string
    (job_extraction_prompt job_title location experience_years skills_string) = true.
Proof.
  unfold job_extraction_prompt.
  in_line ("                    -Skills: Should match at least some of these skills :"
           ++ skills_string).
Qed.

Lemma analysis_prompt_has_title (jobs : pyval) (job_title location : string)
    (experience_years : pyval) (skills_string : string) :
  contains job_title
    (job_analysis_prompt jobs job_title location experience_years skills_string) = true.
Proof.
  unfold job_analysis_prompt.
  in_line ("                    -Job Title: Related to " ++ job_title).
Qed.

Lemma analysis_prompt_has_location (jobs : pyval) (job_title location : string)
    (experience_years : pyval) (skills_string : string) :
  contains location
    (job_analysis_prompt jobs job_title location experience_years skills_string) = true.
Proof.
  unfold job_analysis_prompt.
  in_line ("                    -Location/Region: Near " ++ location).
Qed.

Lemma analysis_prompt_has_skills (jobs : pyval) (job_title location : string)
    (experience_years : pyval) (skills_string : string) :
  contains skills_string
    (job_analysis_prompt jobs job_title location experience_years skills_string) = true.
Proof.
  unfold job_analysis_prompt.
  in_line ("                    -skills: " ++ skills_string).
Qed.

Lemma analysis_prompt_has_experience (jobs : pyval) (job_title location : string)
    (experience_years : pyval) (skills_string : string) :
  contains (py_str experience_years)
    (job_analysis_prompt jobs job_title location experience_years skills_string) = true.
Proof.
  unfold job_analysis_prompt.
  in_line ("                    -Experience: Around " ++ py_str experience_years
           ++ " years").
Qed.

Lemma trend_extraction_prompt_has_category (job_category : string) :
  contains job_category (trend_extraction_prompt job_category) = true.
Proof.
  unfold trend_extraction_prompt.
  in_line ("Extract industry trends data for the " ++ job_category ++ " industry.").
Qed.

Lemma trend_analysis_prompt_has_category (job_category : string) (industries : pyval) :
  contains job_category (trend_analysis_prompt job_category industries) = true.
Proof.
  unfold trend_analysis_prompt.
  in_line ("As a career expert, analyze these industry trends for " ++ job_category
           ++ ":").
Qed.

Lemma contains_trans (p q s : string) :
  contains p q = true -> contains q s = true -> contains p s = true.
Proof.
  intros P Q; apply contains_spec in P, Q; apply contains_spec.
  eapply occurs_trans; eassumption.
Qed.

End Criteria.

(** X3.  The requests carry the criteria of the user as typed: the
    extraction prompt and the synthesis prompt of [find_jobs] contain the
    job title, the location, the text of the years of experience and every
    skill, and both prompts of [get_industry_trends] contain the job
    category. *)
Theorem prompts_carry_the_criteria :
  forall (B : Builtins) (job_title location : string) (experience_years : pyval)
         (skills : list string) (jobs : pyval) (job_category : string)
         (industries : pyval),
    let extraction :=
      job_extraction_prompt job_title location experience_years (join ", " skills) in
    let analysis :=
      job_analysis_prompt jobs job_title location experience_years (join ", " skills) in
    (contains job_title extraction = true
     /\ contains location extraction = true
     /\ contains (py_str experience_years) extraction = true
     /\ forallb (fun skill => contains skill extraction) skills = true)
    /\ (contains job_title analysis = true
        /\ contains location analysis = true
        /\ contains (py_str experience_years) analysis = true
        /\ forallb (fun skill => contains skill analysis) skills = true)
    /\ contains job_category (trend_extraction_prompt job_category) = true
    /\ contains job_category (trend_analysis_prompt job_category industries) = true.
Proof.
  intros B jt loc ey sk jobs jc ind extraction analysis.
  assert (S : forall skill, In skill sk -> contains skill (join ", " sk) = true)
    by (intros skill I; apply contains_spec, occurs_join, I).
  repeat split.
  - apply extraction_prompt_has_title.
  - apply extraction_prompt_has_location.
  - apply extraction_prompt_has_experience.
  - apply forallb_forall; intros skill I.
    apply contains_trans with (q := join ", " sk); [apply S, I |].
    apply extraction_prompt_has_skills.
  - apply analysis_prompt_has_title.
  - apply analysis_prompt_has_location.
  - apply analysis_prompt_has_experience.
  - apply forallb_forall; intros skill I.
    apply contains_trans with (q := join ", " sk); [apply S, I |].
    apply analysis_prompt_has_skills.
  - apply trend_extraction_prompt_has_category.
  - apply trend_analysis_prompt_has_category.
Qed.

(** ** The target URLs *)

Section Urls.

Lemma has_char_app (c : ascii) (a b : string) :
  has_char c (a ++ b) = has_char c a || has_char c b.
Proof.
  induction a as [|x a IH]; [reflexivity |].
  cbn [append has_char]; rewrite IH; apply orb_assoc.
Qed.

Lemma replace_removes (old new : ascii) (s : string) :
  old <> new -> has_char old (replace old new s) = false.
Proof.
  intros D; induction s as [|c s IH]; [reflexivity |].
  cbn [replace has_char]; rewrite IH, orb_false_r.
  destruct (Ascii.eqb c old) eqn:E.
  - apply Ascii.eqb_neq, D.
  - rewrite Ascii.eqb_sym; exact E.
Qed.

Lemma length_replace (old new : ascii) (s : string) :
  String.length (replace old new s) = String.length s.
Proof. induction s as [|c s IH]; [reflexivity | cbn; now rewrite IH]. Qed.

Lemma length_lower_ascii (s : string) :
  String.length (lower_ascii s) = String.length s.
Proof. induction s as [|c s IH]; [reflexivity | cbn; now rewrite IH]. Qed.

Lemma digits_have_no_space (d : Decimal.uint) :
  has_char " " (NilEmpty.string_of_uint d) = false.
Proof. induction d; cbn; auto. Qed.

Lemma str_nat_has_no_space (n : nat) : has_char " " (str_nat n) = false.
Proof.
  unfold str_nat, NilZero.string_of_uint.
  destruct (Nat.to_uint n) eqn:E; try reflexivity;
    rewrite <- E; apply digits_have_no_space.
Qed.

End Urls.

(** X4.  No target URL holds a space, whatever the criteria and whatever
    [str.lower] does: [replace(' ','-')] is applied last to every
    interpolated text, and the literal parts and the digits of the length
    hold none. *)
Theorem target_urls_hold_no_space :
  forall (B : Builtins) (job_title location job_category : string),
    forallb (fun url => negb (has_char " " url))
      (job_urls job_title location ++ trend_urls job_category) = true.
Proof.
  intros B jt loc jc.
  assert (R : forall s, has_char " " (replace " " "-" s) = false)
    by (intros s; apply replace_removes; discriminate).
  unfold job_urls, trend_urls; cbn [app forallb].
  rewrite !has_char_app, !R, str_nat_has_no_space; reflexivity.
Qed.

(** X5.  On ASCII text the number the glassdoor URL gives after
    [SRCH_KO0,] is the length of the keyword put in the path: lowering
    and replacing spaces keep the length of the job category. *)
Theorem glassdoor_offset_is_keyword_length :
  forall job_category : string,
    nth 1 (@trend_urls ascii_text job_category) ""
    = "https://www.glassdoor.com/Salaries/" ++ @url_form ascii_text job_category
      ++ "-salary-SRCH_KO0,"
      ++ str_nat (String.length (@url_form ascii_text job_category)) ++ ".htm".
Proof.
  intros jc; unfold trend_urls, url_form; cbn [nth lower len ascii_text].
  now rewrite length_replace, length_lower_ascii.
Qed.

(** ** Computations that only append to the log *)

Section Framing.
Context {A B : Type}.

Lemma framed_ret (a : A) : framed (ret a).
Proof. intros log; cbn; now rewrite app_nil_r. Qed.

Lemma framed_raise (e : string) : framed (@raise A e).
Proof. intros log; cbn; now rewrite app_nil_r. Qed.

Lemma framed_perform (ev : event) (o : outcome A) : framed (perform ev o).
Proof. intros log; reflexivity. Qed.

Lemma framed_bind (m : M A) (k : A -> M B) :
  framed m -> (forall a, framed (k a)) -> framed (bind m k).
Proof.
  intros Fm Fk log; unfold bind.
  rewrite (Fm log); destruct (m []) as [[a|e] l0]; cbn [fst snd].
  - rewrite (Fk a (log ++ l0)%list), (Fk a l0); cbn [fst snd].
    now rewrite app_assoc.
  - reflexivity.
Qed.

Lemma framed_try_except (body : M A) (handler : string -> M A) :
  framed body -> (forall e, framed (handler e)) -> framed (try_except body handler).
Proof.
  intros Fb Fh log; unfold try_except.
  rewrite (Fb log); destruct (body []) as [[a|e] l0]; cbn [fst snd].
  - reflexivity.
  - rewrite (Fh e (log ++ l0)%list), (Fh e l0); cbn [fst snd].
    now rewrite app_assoc.
Qed.

End Framing.

Ltac frame :=
  cbv zeta;
  repeat first
    [ apply framed_ret | apply framed_raise | apply framed_perform
    | apply framed_try_except | apply framed_bind
    | lazymatch goal with |- framed _ => fail | |- _ => intro end
    | match goal with
      | |- framed (if ?b then _ else _) => destruct b
      | |- framed (match ?x with _ => _ end) => destruct x
      end ].

Section MethodsAreFramed.
Context `{Builtins}.

Lemma app_find_jobs_framed
    (firecrawl_extract : list string -> string -> schema -> outcome App.FirecrawlResponse)
    (agent_run : string -> outcome string)
    (job_title location : string) (experience_years : pyval) (skills : list string) :
  framed (App.find_jobs firecrawl_extract agent_run job_title location
            experience_years skills).
Proof. unfold App.find_jobs, App.extract, App.run; frame. Qed.

Lemma app_trends_framed
    (firecrawl_extract : list string -> string -> schema -> outcome App.FirecrawlResponse)
    (agent_run : string -> outcome string) (job_category : string) :
  framed (App.get_industry_trends firecrawl_extract agent_run job_category).
Proof. unfold App.get_industry_trends, App.extract, App.run; frame. Qed.

Lemma jobhunt_find_jobs_framed
    (firecrawl_extract : list string -> string -> schema -> outcome pyval)
    (agent_run : string -> outcome string)
    (job_title location : string) (experience_years : pyval) (skills : list string) :
  framed (JobHunt.find_jobs firecrawl_extract agent_run job_title location
            experience_years skills).
Proof.
  unfold JobHunt.find_jobs, JobHunt.extract, JobHunt.run, JobHunt.jobs_of,
    JobHunt.payload_get, JobHunt.subscript, JobHunt.method_get.
  frame.
Qed.

Lemma jobhunt_trends_framed
    (firecrawl_extract : list string -> string -> schema -> outcome pyval)
    (agent_run : string -> outcome string) (job_category : string) :
  framed (JobHunt.get_industry_trends firecrawl_extract agent_run job_category).
Proof.
  unfold JobHunt.get_industry_trends, JobHunt.extract, JobHunt.run,
    JobHunt.payload_get, JobHunt.subscript, JobHunt.method_get.
  frame.
Qed.

End MethodsAreFramed.

(** ** The runs of [job-hunt.py], by cases *)

Section JobHuntExec.
Context `{Builtins}.
Variable firecrawl_extract : list string -> string -> schema -> outcome pyval.
Variable agent_run : string -> outcome string.

Ltac step_run :=
  cbv beta iota zeta delta
    [exec result trace JobHunt.find_jobs JobHunt.get_industry_trends try_except bind
     JobHunt.extract JobHunt.run JobHunt.jobs_of perform ret raise app negb].

(** Reading the payload logs nothing. *)
Lemma payload_get_log (r : dict) (key : string) (log : list event) :
  JobHunt.payload_get r key log = (fst (JobHunt.payload_get r key []), log).
Proof.
  unfold JobHunt.payload_get, JobHunt.subscript, JobHunt.method_get, bind, ret, raise.
  destruct (dict_has r "data"); [| reflexivity].
  destruct (dict_get r "data" PNone); reflexivity.
Qed.

(** What reading the payload gives, by cases on the response. *)
Lemma payload_get_cases (r : dict) (key : string) :
  fst (JobHunt.payload_get r key []) =
  if dict_has r "data" then
    match dict_get r "data" PNone with
    | PDict d => Returned (dict_get d key (PList []))
    | v => Raised ("'" ++ type_name v ++ "' object has no attribute 'get'")
    end
  else Raised (repr_text "data").
Proof.
  unfold JobHunt.payload_get, JobHunt.subscript, JobHunt.method_get, bind, ret, raise.
  destruct (dict_has r "data"); [| reflexivity].
  destruct (dict_get r "data" PNone); reflexivity.
Qed.

(** What a run of [find_jobs] returns and logs, by cases on the response
    and on what the synthesis answers. *)
Lemma jobhunt_find_jobs_exec (job_title location : string) (experience_years : pyval)
    (skills : list string) :
  let skills_string := join ", " skills in
  let request :=
    Extract (job_urls job_title location)
      (job_extraction_prompt job_title location experience_years skills_string)
      ExtractSchema in
  let synthesis (jobs : pyval) :=
    let prompt :=
      job_analysis_prompt jobs job_title location experience_years skills_string in
    if truthy jobs then
      match agent_run prompt with
      | Returned content => (Returned content, [request; Run prompt])
      | Raised e => (Returned (find_jobs_error e), [request; Run prompt])
      end
    else (Returned no_job_listing, [request]) in
  exec (JobHunt.find_jobs firecrawl_extract agent_run job_title location
          experience_years skills) =
  match firecrawl_extract (job_urls job_title location)
          (job_extraction_prompt job_title location experience_years skills_string)
          ExtractSchema with
  | Raised e => (Returned (find_jobs_error e), [request])
  | Returned raw_response =>
      match JobHunt.succeeded raw_response with
      | None => synthesis (PList [])
      | Some r =>
          match fst (JobHunt.payload_get r "job_postings" []) with
          | Returned jobs => synthesis jobs
          | Raised e => (Returned (find_jobs_error e), [request])
          end
      end
  end.
Proof.
  step_run.
  destruct (firecrawl_extract _ _ _) as [raw_response|e]; [|reflexivity].
  destruct (JobHunt.succeeded raw_response) as [r|]; [| reflexivity].
  rewrite payload_get_log.
  destruct (fst (JobHunt.payload_get r "job_postings" [])) as [jobs|e]; [| reflexivity].
  destruct (truthy jobs); [| reflexivity].
  destruct (agent_run _); reflexivity.
Qed.

(** The same for [get_industry_trends]. *)
Lemma jobhunt_trends_exec (job_category : string) :
  let request :=
    Extract (trend_urls job_category) (trend_extraction_prompt job_category)
      IndustryTrendsSchema in
  exec (JobHunt.get_industry_trends firecrawl_extract agent_run job_category) =
  match firecrawl_extract (trend_urls job_category)
          (trend_extraction_prompt job_category) IndustryTrendsSchema with
  | Raised e => (Returned (industry_trends_error e), [request])
  | Returned raw_response =>
      match JobHunt.succeeded raw_response with
      | None => (Returned (no_trend_data job_category), [request])
      | Some r =>
          match fst (JobHunt.payload_get r "industry_trends" []) with
          | Raised e => (Returned (industry_trends_error e), [request])
          | Returned industries =>
              let prompt := trend_analysis_prompt job_category industries in
              if truthy industries then
                match agent_run prompt with
                | Returned content => (Returned content, [request; Run prompt])
                | Raised e => (Returned (industry_trends_error e), [request; Run prompt])
                end
              else (Returned (no_trends_data job_category), [request])
          end
      end
  end.
Proof.
  step_run.
  destruct (firecrawl_extract _ _ _) as [raw_response|e]; [|reflexivity].
  destruct (JobHunt.succeeded raw_response) as [r|]; [| reflexivity].
  rewrite payload_get_log.
  destruct (fst (JobHunt.payload_get r "industry_trends" [])) as [ind|e]; [| reflexivity].
  destruct (truthy ind); [| reflexivity].
  destruct (agent_run _); reflexivity.
Qed.

End JobHuntExec.

(** X6.  In [job-hunt.py] neither method raises, whatever value the
    extraction returns (a dict or not, with or without [data]) and
    whatever the two services do: each returns a string, after exactly
    one extraction request, made first, and at most one synthesis call. *)
Theorem jobhunt_methods_always_return :
  forall (B : Builtins)
         (firecrawl_extract : list string -> string -> schema -> outcome pyval)
         (agent_run : string -> outcome string)
         (job_title location : string) (experience_years : pyval)
         (skills : list string) (job_category : string),
    (exists text rest,
        exec (JobHunt.find_jobs firecrawl_extract agent_run job_title location
                experience_years skills)
        = (Returned text,
           Extract (job_urls job_title location)
             (job_extraction_prompt job_title location experience_years
                (join ", " skills)) ExtractSchema :: rest)
        /\ (rest = [] \/ exists prompt, rest = [Run prompt]))
    /\ (exists text rest,
           exec (JobHunt.get_industry_trends firecrawl_extract agent_run job_category)
           = (Returned text,
              Extract (trend_urls job_category) (trend_extraction_prompt job_category)
                IndustryTrendsSchema :: rest)
           /\ (rest = [] \/ exists prompt, rest = [Run prompt])).
Proof.
  intros B fe ar jt loc ey sk jc; split.
  - pose proof (jobhunt_find_jobs_exec fe ar jt loc ey sk) as X; cbv zeta in X.
    rewrite X; clear X.
    destruct (fe _ _ _) as [raw|e];
      [| do 2 eexists; split; [reflexivity | now left]].
    destruct (JobHunt.succeeded raw) as [r|].
    + destruct (fst (JobHunt.payload_get r "job_postings" [])) as [jobs|e];
        [| do 2 eexists; split; [reflexivity | now left]].
      destruct (truthy jobs); [| do 2 eexists; split; [reflexivity | now left]].
      destruct (ar _); do 2 eexists;
        (split; [reflexivity | right; eexists; reflexivity]).
    + cbn [truthy]; do 2 eexists; split; [reflexivity | now left].
  - pose proof (jobhunt_trends_exec fe ar jc) as X; cbv zeta in X.
    rewrite X; clear X.
    destruct (fe _ _ _) as [raw|e];
      [| do 2 eexists; split; [reflexivity | now left]].
    destruct (JobHunt.succeeded raw) as [r|];
      [| do 2 eexists; split; [reflexivity | now left]].
    destruct (fst (JobHunt.payload_get r "industry_trends" [])) as [ind|e];
      [| do 2 eexists; split; [reflexivity | now left]].
    destruct (truthy ind); [| do 2 eexists; split; [reflexivity | now left]].
    destruct (ar _); do 2 eexists;
      (split; [reflexivity | right; eexists; reflexivity]).
Qed.

(** X7.  In [job-hunt.py], a response dict whose [success] entry is truthy
    but whose payload cannot be read ends in the handler, with no
    synthesis call: without a [data] entry the returned message embeds
    the text of the [KeyError], and with a [data] entry that is not a
    dict it embeds the text of the [AttributeError] on [get]. *)
Theorem unreadable_payload_becomes_error_message :
  forall (B : Builtins)
         (firecrawl_extract : list string -> string -> schema -> outcome pyval)
         (agent_run : string -> outcome string)
         (job_title location : string) (experience_years : pyval)
         (skills : list string) (job_category : string) (r : dict),
    let unreadable :=
      if dict_has r "data" then
        "'" ++ type_name (dict_get r "data" PNone) ++ "' object has no attribute 'get'"
      else repr_text "data" in
    truthy (dict_get r "success" PNone) = true ->
    (dict_has r "data" = true -> forall d, dict_get r "data" PNone <> PDict d) ->
    (firecrawl_extract (job_urls job_title location)
       (job_extraction_prompt job_title location experience_years (join ", " skills))
       ExtractSchema = Returned (PDict r) ->
     exec (JobHunt.find_jobs firecrawl_extract agent_run job_title location
             experience_years skills)
     = (Returned (find_jobs_error unreadable),
        [Extract (job_urls job_title location)
           (job_extraction_prompt job_title location experience_years
              (join ", " skills)) ExtractSchema]))
    /\ (firecrawl_extract (trend_urls job_category)
          (trend_extraction_prompt job_category) IndustryTrendsSchema
        = Returned (PDict r) ->
        exec (JobHunt.get_industry_trends firecrawl_extract agent_run job_category)
        = (Returned (industry_trends_error unreadable),
           [Extract (trend_urls job_category) (trend_extraction_prompt job_category)
              IndustryTrendsSchema])).
Proof.
  intros B fe ar jt loc ey sk jc r unreadable S D.
  assert (P : forall key,
             fst (JobHunt.payload_get r key []) = Raised unreadable).
  { intros key; rewrite payload_get_cases; subst unreadable.
    destruct (dict_has r "data"); [| reflexivity].
    specialize (D eq_refl).
    destruct (dict_get r "data" PNone) as [| | | | | |d]; try reflexivity.
    now destruct (D d). }
  assert (R : JobHunt.succeeded (PDict r) = Some r)
    by (unfold JobHunt.succeeded; now rewrite S).
  split; intros E.
  - pose proof (jobhunt_find_jobs_exec fe ar jt loc ey sk) as X; cbv zeta in X.
    rewrite X, E, R, P; reflexivity.
  - pose proof (jobhunt_trends_exec fe ar jc) as X; cbv zeta in X.
    rewrite X, E, R, P; reflexivity.
Qed.

(** X7 on a response whose [data] entry is a list. *)
Lemma unreadable_payload_becomes_error_message_witness :
  exec (@JobHunt.find_jobs ascii_text
          (Sample.extract_returns
             (PDict [("success", PBool true); ("data", PList [Sample.full_posting])]))
          (Sample.run_returns "report")
          Sample.job_title Sample.location Sample.experience_years Sample.skills)
  = (Returned (find_jobs_error "'list' object has no attribute 'get'"),
     [Extract (@job_urls ascii_text Sample.job_title Sample.location)
        (@job_extraction_prompt ascii_text Sample.job_title Sample.location
           Sample.experience_years (join ", " Sample.skills)) ExtractSchema]).
Proof.
  apply (proj1 (unreadable_payload_becomes_error_message ascii_text
                  (Sample.extract_returns
                     (PDict [("success", PBool true);
                             ("data", PList [Sample.full_posting])]))
                  (Sample.run_returns "report")
                  Sample.job_title Sample.location Sample.experience_years
                  Sample.skills Sample.job_category
                  [("success", PBool true); ("data", PList [Sample.full_posting])]
                  eq_refl (fun _ d => ltac:(discriminate)))).
  reflexivity.
Defined.

(** X8.  In [job-hunt.py], a returned value that is not a dict, or a dict
    whose [success] entry is missing or falsy, gives the fallback message
    of the method after the single extraction request, and no synthesis
    call. *)
Theorem jobhunt_failed_response_gives_fallback :
  forall (B : Builtins)
         (firecrawl_extract : list string -> string -> schema -> outcome pyval)
         (agent_run : string -> outcome string)
         (job_title location : string) (experience_years : pyval)
         (skills : list string) (job_category : string) (raw_response : pyval),
    JobHunt.succeeded raw_response = None ->
    (firecrawl_extract (job_urls job_title location)
       (job_extraction_prompt job_title location experience_years (join ", " skills))
       ExtractSchema = Returned raw_response ->
     exec (JobHunt.find_jobs firecrawl_extract agent_run job_title location
             experience_years skills)
     = (Returned no_job_listing,
        [Extract (job_urls job_title location)
           (job_extraction_prompt job_title location experience_years
              (join ", " skills)) ExtractSchema]))
    /\ (firecrawl_extract (trend_urls job_category)
          (trend_extraction_prompt job_category) IndustryTrendsSchema
        = Returned raw_response ->
        exec (JobHunt.get_industry_trends firecrawl_extract agent_run job_category)
        = (Returned (no_trend_data job_category),
           [Extract (trend_urls job_category) (trend_extraction_prompt job_category)
              IndustryTrendsSchema])).
Proof.
  intros B fe ar jt loc ey sk jc raw S; split; intros E.
  - pose proof (jobhunt_find_jobs_exec fe ar jt loc ey sk) as X; cbv zeta in X.
    rewrite X, E, S; reflexivity.
  - pose proof (jobhunt_trends_exec fe ar jc) as X; cbv zeta in X.
    rewrite X, E, S; reflexivity.
Qed.

(** X8 on a response that is a list, not a dict. *)
Lemma jobhunt_failed_response_gives_fallback_witness :
  exec (@JobHunt.get_industry_trends ascii_text
          (Sample.extract_returns (PList [Sample.trend]))
          (Sample.run_returns "report") Sample.job_category)
  = (Returned (no_trend_data Sample.job_category),
     [Extract (@trend_urls ascii_text Sample.job_category)
        (trend_extraction_prompt Sample.job_category) IndustryTrendsSchema]).
Proof.
  apply (proj2 (jobhunt_failed_response_gives_fallback ascii_text
                  (Sample.extract_returns (PList [Sample.trend]))
                  (Sample.run_returns "report")
                  Sample.job_title Sample.location Sample.experience_years
                  Sample.skills Sample.job_category (PList [Sample.trend]) eq_refl)).
  reflexivity.
Defined.

(** ** The page after a click on the search button *)

(** The events of the no-skills warning. *)
Lemma shown_app (l1 l2 : list event) : shown (l1 ++ l2) = (shown l1 ++ shown l2)%list.
Proof. apply flat_map_app. Qed.

Lemma remote_calls_app (l1 l2 : list event) :
  remote_calls (l1 ++ l2) = (remote_calls l1 ++ remote_calls l2)%list.
Proof. apply filter_app. Qed.

Section JobHuntPage.
Context `{Builtins}.
Variable firecrawl_extract : list string -> string -> schema -> outcome pyval.
Variable agent_run : string -> outcome string.

(** What [main] does once both fields are filled, from the strings the
    two methods return. *)
Lemma jobhunt_main_exec (job_title location : string) (experience_years : pyval)
    (skills : list string) (job_category : string) :
  let find := JobHunt.find_jobs firecrawl_extract agent_run job_title location
                experience_years skills in
  let trends := JobHunt.get_industry_trends firecrawl_extract agent_run job_category in
  let warning :=
    match skills with
    | [] => [Show (st_warning
               "⚠️ No skills provided. Adding skills will improve job matching.")]
    | _ => []
    end in
  let handler (e : string) :=
    [Show (st_error ("❌ An error occurred: " ++ e)); Show (st_info (JobHunt.hint e))] in
  String.eqb job_title "" || String.eqb location "" = false ->
  exec (JobHunt.main firecrawl_extract agent_run job_title location experience_years
          skills job_category) =
  (Returned tt,
   warning ++ trace find ++
   match result find with
   | Raised e => handler e
   | Returned job_results =>
       if JobHunt.looks_like_error job_results then [Show (st_error job_results)]
       else
         [Show (st_success "✅ Job search completed!");
          Show (st_subheader "💼 Job Recommendations");
          Show (st_markdown job_results);
          Show st_divider] ++ trace trends ++
         match result trends with
         | Raised e => handler e
         | Returned industry_trends =>
             if JobHunt.looks_like_error industry_trends
             then [Show (st_error industry_trends)]
             else [Show (st_success "✅ Industry analysis completed!");
                   Show (st_expander
                           ("📈 " ++ job_category ++ " Industry Trends Analysis")
                           industry_trends)]
         end
   end)%list.
Proof.
  intros find trends warning handler G.
  pose proof (jobhunt_find_jobs_framed firecrawl_extract agent_run job_title location
                experience_years skills) as Ff.
  pose proof (jobhunt_trends_framed firecrawl_extract agent_run job_category) as Ft.
  fold find in Ff; fold trends in Ft.
  assert (W : forall k : unit -> M unit,
             bind (match skills with
                   | [] => JobHunt.show (st_warning
                             "⚠️ No skills provided. Adding skills will improve job matching.")
                   | _ => ret tt
                   end) k [] = k tt warning)
    by (intros k; subst warning; now destruct skills).
  unfold JobHunt.main; rewrite G; fold find; fold trends.
  unfold exec at 1; rewrite W; clear W.
  unfold result, trace, exec, bind, try_except, JobHunt.show, perform, ret.
  rewrite (Ff warning).
  subst handler; cbv beta.
  destruct (find []) as [[job_results|e] t1]; cbn [fst snd];
    [| now rewrite <- ?app_assoc].
  destruct (JobHunt.looks_like_error job_results); [now rewrite <- ?app_assoc |].
  rewrite (Ft _).
  destruct (trends []) as [[industry_trends|e] t2]; cbn [fst snd];
    [destruct (JobHunt.looks_like_error industry_trends) |];
    rewrite <- ?app_assoc; reflexivity.
Qed.

End JobHuntPage.

Section AppPage.
Context `{Builtins}.
Variable firecrawl_extract : list string -> string -> schema -> outcome App.FirecrawlResponse.
Variable agent_run : string -> outcome string.

(** What [main] does once both fields are filled, from the strings the
    two methods return. *)
Lemma app_main_exec (job_title location : string) (experience_years : pyval)
    (skills : list string) (job_category : string) :
  let find := App.find_jobs firecrawl_extract agent_run job_title location
                experience_years skills in
  let trends := App.get_industry_trends firecrawl_extract agent_run job_category in
  let warning :=
    match skills with
    | [] => [Show (st_warning
               "⚠️ No skills provided. Adding skills will improve job matching.")]
    | _ => []
    end in
  let handler (e : string) :=
    [Show (st_error ("❌ An error occurred: " ++ e)); Show (st_info (App.hint e))] in
  String.eqb job_title "" || String.eqb location "" = false ->
  exec (App.main firecrawl_extract agent_run job_title location experience_years
          skills job_category) =
  (Returned tt,
   warning ++ trace find ++
   match result find with
   | Raised e => handler e
   | Returned job_results =>
       if App.looks_like_error job_results then [Show (st_error job_results)]
       else
         [Show (st_success "✅ Job search completed!");
          Show (st_subheader "💼 Job Recommendations");
          Show (st_markdown job_results);
          Show st_divider] ++ trace trends ++
         match result trends with
         | Raised e => handler e
         | Returned industry_trends =>
             if App.looks_like_error industry_trends
             then [Show (st_error industry_trends)]
             else [Show (st_success "✅ Industry analysis completed!");
                   Show (st_expander
                           ("📈 " ++ job_category ++ " Industry Trends Analysis")
                           industry_trends)]
         end
   end)%list.
Proof.
  intros find trends warning handler G.
  pose proof (app_find_jobs_framed firecrawl_extract agent_run job_title location
                experience_years skills) as Ff.
  pose proof (app_trends_framed firecrawl_extract agent_run job_category) as Ft.
  fold find in Ff; fold trends in Ft.
  assert (W : forall k : unit -> M unit,
             bind (match skills with
                   | [] => App.show (st_warning
                             "⚠️ No skills provided. Adding skills will improve job matching.")
                   | _ => ret tt
                   end) k [] = k tt warning)
    by (intros k; subst warning; now destruct skills).
  unfold App.main; rewrite G; fold find; fold trends.
  unfold exec at 1; rewrite W; clear W.
  unfold result, trace, exec, bind, try_except, App.show, perform, ret.
  rewrite (Ff warning).
  subst handler; cbv beta.
  destruct (find []) as [[job_results|e] t1]; cbn [fst snd];
    [| now rewrite <- ?app_assoc].
  destruct (App.looks_like_error job_results); [now rewrite <- ?app_assoc |].
  rewrite (Ft _).
  destruct (trends []) as [[industry_trends|e] t2]; cbn [fst snd];
    [destruct (App.looks_like_error industry_trends) |];
    rewrite <- ?app_assoc; reflexivity.
Qed.

End AppPage.

(** A method returns a string and puts nothing on the page: its log is
    the extraction request followed by remote calls only. *)
Section MethodsAreQuiet.
Context `{Builtins}.

Ltac quiet := do 2 eexists; split; reflexivity.

Lemma app_find_jobs_quiet
    (firecrawl_extract : list string -> string -> schema -> outcome App.FirecrawlResponse)
    (agent_run : string -> outcome string)
    (job_title location : string) (experience_years : pyval) (skills : list string) :
  exists text rest,
    exec (App.find_jobs firecrawl_extract agent_run job_title location
            experience_years skills)
    = (Returned text,
       Extract (job_urls job_title location)
         (job_extraction_prompt job_title location experience_years
            (join ", " skills)) ExtractSchema :: rest)
    /\ shown rest = [].
Proof.
  pose proof (find_jobs_exec firecrawl_extract agent_run job_title location
                experience_years skills) as X; cbv zeta in X; rewrite X; clear X.
  destruct (firecrawl_extract _ _ _) as [r|e]; [| quiet].
  destruct (truthy _); [| quiet].
  destruct (agent_run _); quiet.
Qed.

Lemma app_trends_quiet
    (firecrawl_extract : list string -> string -> schema -> outcome App.FirecrawlResponse)
    (agent_run : string -> outcome string) (job_category : string) :
  exists text rest,
    exec (App.get_industry_trends firecrawl_extract agent_run job_category)
    = (Returned text,
       Extract (trend_urls job_category) (trend_extraction_prompt job_category)
         IndustryTrendsSchema :: rest)
    /\ shown rest = [].
Proof.
  pose proof (get_industry_trends_exec firecrawl_extract agent_run job_category) as X;
    cbv zeta in X; rewrite X; clear X.
  destruct (firecrawl_extract _ _ _) as [r|e]; [| quiet].
  destruct (App.success r); [| quiet].
  destruct (truthy _); [| quiet].
  destruct (agent_run _); quiet.
Qed.

Lemma jobhunt_find_jobs_quiet
    (firecrawl_extract : list string -> string -> schema -> outcome pyval)
    (agent_run : string -> outcome string)
    (job_title location : string) (experience_years : pyval) (skills : list string) :
  exists text rest,
    exec (JobHunt.find_jobs firecrawl_extract agent_run job_title location
            experience_years skills)
    = (Returned text,
       Extract (job_urls job_title location)
         (job_extraction_prompt job_title location experience_years
            (join ", " skills)) ExtractSchema :: rest)
    /\ shown rest = [].
Proof.
  pose proof (jobhunt_find_jobs_exec firecrawl_extract agent_run job_title location
                experience_years skills) as X; cbv zeta in X; rewrite X; clear X.
  destruct (firecrawl_extract _ _ _) as [raw|e]; [| quiet].
  destruct (JobHunt.succeeded raw) as [r|]; [| cbn [truthy]; quiet].
  destruct (fst (JobHunt.payload_get r "job_postings" [])) as [jobs|e]; [| quiet].
  destruct (truthy jobs); [| quiet].
  destruct (agent_run _); quiet.
Qed.

Lemma jobhunt_trends_quiet
    (firecrawl_extract : list string -> string -> schema -> outcome pyval)
    (agent_run : string -> outcome string) (job_category : string) :
  exists text rest,
    exec (JobHunt.get_industry_trends firecrawl_extract agent_run job_category)
    = (Returned text,
       Extract (trend_urls job_category) (trend_extraction_prompt job_category)
         IndustryTrendsSchema :: rest)
    /\ shown rest = [].
Proof.
  pose proof (jobhunt_trends_exec firecrawl_extract agent_run job_category) as X;
    cbv zeta in X; rewrite X; clear X.
  destruct (firecrawl_extract _ _ _) as [raw|e]; [| quiet].
  destruct (JobHunt.succeeded raw) as [r|]; [| quiet].
  destruct (fst (JobHunt.payload_get r "industry_trends" [])) as [ind|e]; [| quiet].
  destruct (truthy ind); [| quiet].
  destruct (agent_run _); quiet.
Qed.

End MethodsAreQuiet.

Lemma shown_extract (urls : list string) (prompt : string) (sch : schema)
    (log : list event) :
  shown (Extract urls prompt sch :: log) = shown log.
Proof. reflexivity. Qed.

Lemma shown_run (prompt : string) (log : list event) :
  shown (Run prompt :: log) = shown log.
Proof. reflexivity. Qed.

Lemma shown_show (w : widget) (log : list event) :
  shown (Show w :: log) = w :: shown log.
Proof. reflexivity. Qed.

Lemma shown_nil : shown [] = [].
Proof. reflexivity. Qed.

Ltac page :=
  repeat first
    [ rewrite shown_app | rewrite shown_extract | rewrite shown_run
    | rewrite shown_show | rewrite shown_nil ].

(** X9.  The handler of [main] is never reached, in either file: the two
    methods catch every exception themselves, so [main] ends normally and
    no hint ([st.info]) is shown after a click on the search button,
    whatever the services do. *)
Theorem main_handler_is_never_reached :
  forall (B : Builtins)
         (app_extract : list string -> string -> schema -> outcome App.FirecrawlResponse)
         (jobhunt_extract : list string -> string -> schema -> outcome pyval)
         (agent_run : string -> outcome string)
         (job_title location : string) (experience_years : pyval)
         (skills : list string) (job_category : string),
    let no_hint (w : widget) := match w with st_info _ => false | _ => true end in
    (result (App.main app_extract agent_run job_title location experience_years
               skills job_category) = Returned tt
     /\ forallb no_hint
          (shown (trace (App.main app_extract agent_run job_title location
                           experience_years skills job_category))) = true)
    /\ (result (JobHunt.main jobhunt_extract agent_run job_title location
                  experience_years skills job_category) = Returned tt
        /\ forallb no_hint
             (shown (trace (JobHunt.main jobhunt_extract agent_run job_title location
                              experience_years skills job_category))) = true).
Proof.
  intros B fa fj ar jt loc ey sk jc no_hint; split.
  - destruct (String.eqb jt "" || String.eqb loc "") eqn:G.
    + unfold result, trace, exec, App.main; rewrite G; split; reflexivity.
    + pose proof (app_main_exec fa ar jt loc ey sk jc G) as X; cbv zeta in X.
      unfold result, trace at 1; rewrite X; clear X; cbn [fst snd].
      split; [reflexivity |].
      destruct (app_find_jobs_quiet fa ar jt loc ey sk) as (s & r1 & E1 & Q1).
      destruct (app_trends_quiet fa ar jc) as (t & r2 & E2 & Q2).
      unfold result, trace; rewrite E1, E2; cbn [fst snd].
      assert (W : forallb no_hint
                    (shown match sk with
                           | [] => [Show (st_warning
                                      "⚠️ No skills provided. Adding skills will improve job matching.")]
                           | _ :: _ => []
                           end) = true) by now destruct sk.
      rewrite shown_app, forallb_app, W; clear W; cbn [andb].
      destruct (App.looks_like_error s); [page; rewrite Q1; reflexivity |].
      destruct (App.looks_like_error t); page; rewrite Q1, Q2; reflexivity.
  - destruct (String.eqb jt "" || String.eqb loc "") eqn:G.
    + unfold result, trace, exec, JobHunt.main; rewrite G; split; reflexivity.
    + pose proof (jobhunt_main_exec fj ar jt loc ey sk jc G) as X; cbv zeta in X.
      unfold result, trace at 1; rewrite X; clear X; cbn [fst snd].
      split; [reflexivity |].
      destruct (jobhunt_find_jobs_quiet fj ar jt loc ey sk) as (s & r1 & E1 & Q1).
      destruct (jobhunt_trends_quiet fj ar jc) as (t & r2 & E2 & Q2).
      unfold result, trace; rewrite E1, E2; cbn [fst snd].
      assert (W : forallb no_hint
                    (shown match sk with
                           | [] => [Show (st_warning
                                      "⚠️ No skills provided. Adding skills will improve job matching.")]
                           | _ :: _ => []
                           end) = true) by now destruct sk.
      rewrite shown_app, forallb_app, W; clear W; cbn [andb].
      destruct (JobHunt.looks_like_error s); [page; rewrite Q1; reflexivity |].
      destruct (JobHunt.looks_like_error t); page; rewrite Q1, Q2; reflexivity.
Qed.

(** X10.  The search is guarded: without an agent in the session, or
    with an empty job title or location, the click shows one error and
    makes no remote call, in [app.py] from the session and in
    [job-hunt.py] from the two fields. *)
Theorem guarded_search_makes_no_remote_call :
  forall (B : Builtins)
         (app_extract : list string -> string -> schema -> outcome App.FirecrawlResponse)
         (jobhunt_extract : list string -> string -> schema -> outcome pyval)
         (agent_run : string -> outcome string) (st : Session.session_state)
         (job_title location : string) (experience_years : pyval)
         (skills : list string) (job_category : string),
    (Session.job_agent st = None
     \/ String.eqb job_title "" || String.eqb location "" = true ->
     exists message,
       exec (Session.on_search app_extract agent_run st job_title location
               experience_years skills job_category)
       = (Returned tt, [Show (st_error message)]))
    /\ (String.eqb job_title "" || String.eqb location "" = true ->
        exists message,
          exec (JobHunt.main jobhunt_extract agent_run job_title location
                  experience_years skills job_category)
          = (Returned tt, [Show (st_error message)])).
Proof.
  intros B fa fj ar st jt loc ey sk jc; split.
  - intros G; unfold Session.on_search.
    destruct (Session.job_agent st) as [agent|]; [| eexists; reflexivity].
    destruct G as [G|G]; [discriminate |].
    unfold App.main; rewrite G; eexists; reflexivity.
  - intros G; unfold JobHunt.main; rewrite G; eexists; reflexivity.
Qed.

(** X10 on a session without an agent, and on an empty job title. *)
Lemma guarded_search_makes_no_remote_call_witness :
  (exists message,
      exec (@Session.on_search ascii_text
              (Sample.extract_returns (Sample.response true []))
              (Sample.run_returns "report") Session.fresh
              Sample.job_title Sample.location Sample.experience_years Sample.skills
              Sample.job_category)
      = (Returned tt, [Show (st_error message)]))
  /\ (exists message,
         exec (@JobHunt.main ascii_text
                 (Sample.extract_returns (Sample.response_dict true (PDict [])))
                 (Sample.run_returns "report")
                 "" Sample.location Sample.experience_years Sample.skills
                 Sample.job_category)
         = (Returned tt, [Show (st_error message)])).
Proof.
  split.
  - apply (proj1 (guarded_search_makes_no_remote_call ascii_text
                    (Sample.extract_returns (Sample.response true []))
                    (Sample.extract_returns (Sample.response_dict true (PDict [])))
                    (Sample.run_returns "report") Session.fresh
                    Sample.job_title Sample.location Sample.experience_years
                    Sample.skills Sample.job_category)).
    left; reflexivity.
  - apply (proj2 (guarded_search_makes_no_remote_call ascii_text
                    (Sample.extract_returns (Sample.response true []))
                    (Sample.extract_returns (Sample.response_dict true (PDict [])))
                    (Sample.run_returns "report") Session.fresh
                    "" Sample.location Sample.experience_years
                    Sample.skills Sample.job_category)).
    reflexivity.
Defined.

(** X11.  In [job-hunt.py], when the extraction of [find_jobs] raises with
    a description that lacks the marker, [main] shows the returned error
    message as a completed search ([st.success], then the message as
    markdown) and goes on to request the industry trends. *)
Theorem jobhunt_failed_search_is_shown_as_completed :
  forall (B : Builtins)
         (firecrawl_extract : list string -> string -> schema -> outcome pyval)
         (agent_run : string -> outcome string)
         (job_title location : string) (experience_years : pyval)
         (skills : list string) (job_category e : string),
    String.eqb job_title "" || String.eqb location "" = false ->
    firecrawl_extract (job_urls job_title location)
      (job_extraction_prompt job_title location experience_years (join ", " skills))
      ExtractSchema = Raised e ->
    contains JobHunt.error_marker e = false ->
    exists rest,
      trace (JobHunt.main firecrawl_extract agent_run job_title location
               experience_years skills job_category)
      = (match skills with
         | [] => [Show (st_warning
                    "⚠️ No skills provided. Adding skills will improve job matching.")]
         | _ => []
         end
         ++ [Extract (job_urls job_title location)
               (job_extraction_prompt job_title location experience_years
                  (join ", " skills)) ExtractSchema;
             Show (st_success "✅ Job search completed!");
             Show (st_subheader "💼 Job Recommendations");
             Show (st_markdown (find_jobs_error e));
             Show st_divider;
             Extract (trend_urls job_category) (trend_extraction_prompt job_category)
               IndustryTrendsSchema]
         ++ rest)%list.
Proof.
  intros B fe ar jt loc ey sk jc e G E C.
  pose proof (jobhunt_main_exec fe ar jt loc ey sk jc G) as X; cbv zeta in X.
  unfold trace at 1; rewrite X; clear X; cbn [snd].
  pose proof (jobhunt_find_jobs_exec fe ar jt loc ey sk) as F; cbv zeta in F.
  rewrite E in F.
  destruct (jobhunt_trends_quiet fe ar jc) as (t & r2 & E2 & _).
  unfold result, trace; rewrite F, E2; cbn [fst snd].
  rewrite marker_in_find_jobs_error, C.
  eexists; cbn [app]; reflexivity.
Qed.

(** X11 on the transport failure of scenario C. *)
Lemma jobhunt_failed_search_is_shown_as_completed_witness :
  exists rest,
    trace (@JobHunt.main ascii_text (Sample.extract_raises "connection refused")
             (Sample.run_returns "report")
             Sample.job_title Sample.location Sample.experience_years Sample.skills
             Sample.job_category)
    = ([] ++ [Extract (@job_urls ascii_text Sample.job_title Sample.location)
                (@job_extraction_prompt ascii_text Sample.job_title Sample.location
                   Sample.experience_years (join ", " Sample.skills)) ExtractSchema;
              Show (st_success "✅ Job search completed!");
              Show (st_subheader "💼 Job Recommendations");
              Show (st_markdown (find_jobs_error "connection refused"));
              Show st_divider;
              Extract (@trend_urls ascii_text Sample.job_category)
                (trend_extraction_prompt Sample.job_category) IndustryTrendsSchema]
          ++ rest)%list.
Proof.
  apply (jobhunt_failed_search_is_shown_as_completed ascii_text
           (Sample.extract_raises "connection refused") (Sample.run_returns "report")
           Sample.job_title Sample.location Sample.experience_years Sample.skills
           Sample.job_category "connection refused"); reflexivity.
Defined.

(** Lowering distributes over concatenation. *)
Lemma lower_ascii_app (a b : string) :
  lower_ascii (a ++ b) = lower_ascii a ++ lower_ascii b.
Proof. induction a as [|c a IH]; [reflexivity | cbn; now rewrite IH]. Qed.

(** On ASCII text the test of [app.py] finds every message of the two
    handlers. *)
Lemma app_error_messages_are_found (e : string) :
  @App.looks_like_error ascii_text (find_jobs_error e) = true
  /\ @App.looks_like_error ascii_text (industry_trends_error e) = true.
Proof.
  unfold App.looks_like_error, find_jobs_error, industry_trends_error;
    cbn [lower ascii_text]; rewrite !lower_ascii_app.
  split; apply contains_spec, occurs_app_l, contains_spec; reflexivity.
Qed.

(** X12.  In [app.py], on ASCII text, every message of the handler of
    [find_jobs] is recognised by [main]: it is shown with [st.error],
    nothing else follows, and the industry trends are not requested. *)
Theorem app_failed_search_is_shown_as_error :
  forall (firecrawl_extract : list string -> string -> schema -> outcome App.FirecrawlResponse)
         (agent_run : string -> outcome string)
         (job_title location : string) (experience_years : pyval)
         (skills : list string) (job_category e : string),
    String.eqb job_title "" || String.eqb location "" = false ->
    result (@App.find_jobs ascii_text firecrawl_extract agent_run job_title location
              experience_years skills) = Returned (find_jobs_error e) ->
    trace (@App.main ascii_text firecrawl_extract agent_run job_title location
             experience_years skills job_category)
    = (match skills with
       | [] => [Show (st_warning
                  "⚠️ No skills provided. Adding skills will improve job matching.")]
       | _ => []
       end
       ++ trace (@App.find_jobs ascii_text firecrawl_extract agent_run job_title
                   location experience_years skills)
       ++ [Show (st_error (find_jobs_error e))])%list.
Proof.
  intros fe ar jt loc ey sk jc e G R.
  pose proof (@app_main_exec ascii_text fe ar jt loc ey sk jc G) as X; cbv zeta in X.
  unfold trace at 1; rewrite X; clear X; cbn [snd].
  rewrite R, (proj1 (app_error_messages_are_found e)); reflexivity.
Qed.

(** X12 on the transport failure of scenario C. *)
Lemma app_failed_search_is_shown_as_error_witness :
  trace (@App.main ascii_text (Sample.extract_raises "connection refused")
           (Sample.run_returns "report")
           Sample.job_title Sample.location Sample.experience_years Sample.skills
           Sample.job_category)
  = ([] ++ trace (@App.find_jobs ascii_text (Sample.extract_raises "connection refused")
                    (Sample.run_returns "report")
                    Sample.job_title Sample.location Sample.experience_years
                    Sample.skills)
        ++ [Show (st_error (find_jobs_error "connection refused"))])%list.
Proof.
  apply (app_failed_search_is_shown_as_error
           (Sample.extract_raises "connection refused") (Sample.run_returns "report")
           Sample.job_title Sample.location Sample.experience_years Sample.skills
           Sample.job_category "connection refused"); reflexivity.
Defined.

(** X13.  A search that finds nothing is reported as a completed one: when
    [find_jobs] returns its no-listing message, [main] shows
    [st.success], the heading and the message as markdown, and goes on
    with the industry trends; in [app.py] on ASCII text, in [job-hunt.py]
    on any text. *)
Theorem empty_search_is_shown_as_completed :
  forall (B : Builtins)
         (app_extract : list string -> string -> schema -> outcome App.FirecrawlResponse)
         (jobhunt_extract : list string -> string -> schema -> outcome pyval)
         (agent_run : string -> outcome string)
         (job_title location : string) (experience_years : pyval)
         (skills : list string) (job_category : string),
    let warning :=
      match skills with
      | [] => [Show (st_warning
                 "⚠️ No skills provided. Adding skills will improve job matching.")]
      | _ => []
      end in
    let completed :=
      [Show (st_success "✅ Job search completed!");
       Show (st_subheader "💼 Job Recommendations");
       Show (st_markdown no_job_listing);
       Show st_divider] in
    String.eqb job_title "" || String.eqb location "" = false ->
    (result (@App.find_jobs ascii_text app_extract agent_run job_title location
               experience_years skills) = Returned no_job_listing ->
     exists rest,
       trace (@App.main ascii_text app_extract agent_run job_title location
                experience_years skills job_category)
       = (warning
          ++ trace (@App.find_jobs ascii_text app_extract agent_run job_title location
                      experience_years skills)
          ++ completed
          ++ Extract (@trend_urls ascii_text job_category)
               (trend_extraction_prompt job_category) IndustryTrendsSchema :: rest)%list)
    /\ (result (JobHunt.find_jobs jobhunt_extract agent_run job_title location
                  experience_years skills) = Returned no_job_listing ->
        exists rest,
          trace (JobHunt.main jobhunt_extract agent_run job_title location
                   experience_years skills job_category)
          = (warning
             ++ trace (JobHunt.find_jobs jobhunt_extract agent_run job_title location
                         experience_years skills)
             ++ completed
             ++ Extract (trend_urls job_category)
                  (trend_extraction_prompt job_category) IndustryTrendsSchema :: rest)%list).
Proof.
  intros B fa fj ar jt loc ey sk jc warning completed G; split; intros R.
  - pose proof (@app_main_exec ascii_text fa ar jt loc ey sk jc G) as X; cbv zeta in X.
    unfold trace at 1; rewrite X; clear X; cbn [snd]; rewrite R.
    replace (@App.looks_like_error ascii_text no_job_listing) with false
      by reflexivity.
    destruct (@app_trends_quiet ascii_text fa ar jc) as (t & r2 & E2 & _).
    unfold result, trace at 2; rewrite E2; cbn [fst snd].
    eexists; subst warning completed; cbn [app]; reflexivity.
  - pose proof (jobhunt_main_exec fj ar jt loc ey sk jc G) as X; cbv zeta in X.
    unfold trace at 1; rewrite X; clear X; cbn [snd]; rewrite R.
    replace (JobHunt.looks_like_error no_job_listing) with false by reflexivity.
    destruct (jobhunt_trends_quiet fj ar jc) as (t & r2 & E2 & _).
    unfold result, trace at 2; rewrite E2; cbn [fst snd].
    eexists; subst warning completed; cbn [app]; reflexivity.
Qed.

(** X13 on a response of [app.py] with no posting. *)
Lemma empty_search_is_shown_as_completed_witness :
  exists rest,
    trace (@App.main ascii_text
             (Sample.extract_returns (Sample.response true []))
             (Sample.run_returns "report")
             Sample.job_title Sample.location Sample.experience_years Sample.skills
             Sample.job_category)
    = ([] ++ trace (@App.find_jobs ascii_text
                      (Sample.extract_returns (Sample.response true []))
                      (Sample.run_returns "report")
                      Sample.job_title Sample.location Sample.experience_years
                      Sample.skills)
          ++ [Show (st_success "✅ Job search completed!");
              Show (st_subheader "💼 Job Recommendations");
              Show (st_markdown no_job_listing);
              Show st_divider]
          ++ Extract (@trend_urls ascii_text Sample.job_category)
               (trend_extraction_prompt Sample.job_category) IndustryTrendsSchema
             :: rest)%list.
Proof.
  apply (proj1 (empty_search_is_shown_as_completed ascii_text
                  (Sample.extract_returns (Sample.response true []))
                  (Sample.extract_returns (Sample.response_dict true (PDict [])))
                  (Sample.run_returns "report")
                  Sample.job_title Sample.location Sample.experience_years
                  Sample.skills Sample.job_category eq_refl)).
  reflexivity.
Defined.

(** ** The skills field *)

Section Skills.

Lemma split_not_nil (sep : ascii) (s : string) : Input.split sep s <> [].
Proof.
  induction s as [|c s IH]; cbn [Input.split]; [discriminate |].
  destruct (Ascii.eqb c sep); [discriminate |].
  destruct (Input.split sep s); [contradiction | discriminate].
Qed.

Lemma length_split (sep : ascii) (s : string) :
  length (Input.split sep s) = S (Input.count_char sep s).
Proof.
  induction s as [|c s IH]; cbn [Input.split Input.count_char]; [reflexivity |].
  destruct (Ascii.eqb c sep); cbn [length Nat.add]; [now rewrite IH |].
  destruct (Input.split sep s) as [|piece pieces] eqn:E; [discriminate | exact IH].
Qed.

Lemma join_split (sep : ascii) (s : string) :
  join (String sep "") (Input.split sep s) = s.
Proof.
  unfold join; induction s as [|c s IH]; cbn [Input.split]; [reflexivity |].
  pose proof (split_not_nil sep s) as N.
  destruct (Ascii.eqb c sep) eqn:E.
  - apply Ascii.eqb_eq in E; subst c.
    destruct (Input.split sep s) as [|piece pieces]; [contradiction |].
    rewrite <- IH; reflexivity.
  - destruct (Input.split sep s) as [|piece pieces]; [contradiction |].
    rewrite <- IH; destruct pieces; reflexivity.
Qed.

Lemma pieces_hold_no_separator (sep : ascii) (s : string) :
  forallb (fun piece => negb (has_char sep piece)) (Input.split sep s) = true.
Proof.
  induction s as [|c s IH]; cbn [Input.split]; [reflexivity |].
  destruct (Ascii.eqb c sep) eqn:E; [exact IH |].
  destruct (Input.split sep s) as [|piece pieces]; cbn [forallb has_char] in *.
  - now rewrite Ascii.eqb_sym, E.
  - now rewrite Ascii.eqb_sym, E.
Qed.

End Skills.

(** X14.  The skills typed in the text area: the empty text gives no
    skill, any other text gives one skill more than it holds commas
    (blank pieces included), whatever [strip] removes; splitting at the
    commas loses nothing, since joining the pieces with commas gives the
    text back, and no piece holds a comma. *)
Theorem skills_are_the_pieces_between_commas :
  forall (strip : string -> string) (skills_input : string),
    length (Input.parse_skills strip skills_input)
    = (if String.eqb skills_input "" then 0
       else S (Input.count_char "," skills_input))
    /\ join "," (Input.split "," skills_input) = skills_input
    /\ forallb (fun piece => negb (has_char "," piece))
         (Input.split "," skills_input) = true.
Proof.
  intros strip s; repeat split.
  - unfold Input.parse_skills; destruct (String.eqb s ""); [reflexivity |].
    now rewrite length_map, length_split.
  - apply (join_split ","%char).
  - apply pieces_hold_no_separator.
Qed.




(** ** The sidebar and the session of [app.py] *)

Lemma or_else_empty (a b : string) :
  String.eqb (Session.or_else a b) "" = String.eqb a "" && String.eqb b "".
Proof. unfold Session.or_else; now destruct (String.eqb a "") eqn:E; rewrite ?E. Qed.

(** X16.  The sidebar never fails: [create_job_agent] is only called
    after the entries it reads have been stored, so no [AttributeError]
    can arise.  Afterwards the session holds the chosen model, and it
    holds an agent exactly when it held one before or when both keys are
    available, each typed or found in the environment. *)
Theorem sidebar_always_succeeds :
  forall (chosen_model env_firecrawl_key env_mistral_key
          typed_firecrawl_key typed_mistral_key : string)
         (st : Session.session_state),
    let holds_agent (s : Session.session_state) :=
      match Session.job_agent s with Some _ => true | None => false end in
    exists st' page,
      Session.sidebar chosen_model env_firecrawl_key env_mistral_key
        typed_firecrawl_key typed_mistral_key st = Some (st', page)
      /\ Session.model_id st' = Some chosen_model
      /\ holds_agent st'
         = holds_agent st
           || (negb (String.eqb typed_firecrawl_key "" && String.eqb env_firecrawl_key "")
               && negb (String.eqb typed_mistral_key "" && String.eqb env_mistral_key "")).
Proof.
  intros m ef em tf tm st holds_agent; unfold Session.sidebar; cbv zeta.
  rewrite !or_else_empty.
  destruct (negb (String.eqb tf "" && String.eqb ef "")
            && negb (String.eqb tm "" && String.eqb em "")).
  - unfold Session.create_job_agent, holds_agent; cbn [Session.job_agent
      Session.firecrawl_key Session.model_id Session.mistral_key].
    destruct (Session.job_agent st) eqn:A; do 2 eexists;
      (split; [reflexivity |]); cbn; rewrite ?A; split; reflexivity.
  - do 2 eexists; split; [reflexivity |]; split; [reflexivity |].
    unfold holds_agent; cbn; now rewrite orb_false_r.
Qed.

(** X17.  An agent is created once: when the session already holds one,
    the sidebar leaves it as it is, whatever model is chosen and whatever
    keys are typed afterwards, although the session records the new model
    (and the new keys when both are available). *)
Theorem existing_agent_is_kept :
  forall (chosen_model env_firecrawl_key env_mistral_key
          typed_firecrawl_key typed_mistral_key : string)
         (st : Session.session_state) (agent : Session.JobHuntingAgent),
    Session.job_agent st = Some agent ->
    exists st' page,
      Session.sidebar chosen_model env_firecrawl_key env_mistral_key
        typed_firecrawl_key typed_mistral_key st = Some (st', page)
      /\ Session.job_agent st' = Some agent
      /\ Session.model_id st' = Some chosen_model.
Proof.
  intros m ef em tf tm st agent A; unfold Session.sidebar; cbv zeta.
  destruct (negb _ && negb _).
  - unfold Session.create_job_agent; cbn [Session.job_agent]; rewrite A.
    do 2 eexists; split; [reflexivity |]; cbn; rewrite ?A; split; reflexivity.
  - do 2 eexists; split; [reflexivity |]; cbn; rewrite ?A; split; reflexivity.
Qed.

(** X17 on a session whose agent was made for the small model, when the
    medium model is chosen and another key is typed. *)
Lemma existing_agent_is_kept_witness :
  exists st' page,
    Session.sidebar "mistral-medium-latest" "" "" "fc-new" "ms-new"
      {| Session.model_id := Some "mistral-small-latest";
         Session.firecrawl_key := Some "fc-old";
         Session.mistral_key := Some "ms-old";
         Session.job_agent :=
           Some {| Session.firecrawl_api_key := "fc-old";
                   Session.mistral_api_key := "ms-old";
                   Session.agent_model_id := "mistral-small-latest" |} |}
    = Some (st', page)
    /\ Session.job_agent st'
       = Some {| Session.firecrawl_api_key := "fc-old";
                 Session.mistral_api_key := "ms-old";
                 Session.agent_model_id := "mistral-small-latest" |}
    /\ Session.model_id st' = Some "mistral-medium-latest".
Proof.
  apply (existing_agent_is_kept "mistral-medium-latest" "" "" "fc-new" "ms-new"
           {| Session.model_id := Some "mistral-small-latest";
              Session.firecrawl_key := Some "fc-old";
              Session.mistral_key := Some "ms-old";
              Session.job_agent :=
                Some {| Session.firecrawl_api_key := "fc-old";
                        Session.mistral_api_key := "ms-old";
                        Session.agent_model_id := "mistral-small-latest" |} |}).
  reflexivity.
Defined.

(** X18.  A new agent is made from the resolved keys and the chosen
    model: a typed key wins over the key of the environment, the
    environment key is used when nothing is typed, and the default
    [dummy_key] of [create_job_agent] is never used, since the Mistral
    key is stored before the call. *)
Theorem new_agent_gets_the_resolved_keys :
  forall (chosen_model env_firecrawl_key env_mistral_key
          typed_firecrawl_key typed_mistral_key : string)
         (st st' : Session.session_state) (page : list widget),
    Session.job_agent st = None ->
    Session.sidebar chosen_model env_firecrawl_key env_mistral_key
      typed_firecrawl_key typed_mistral_key st = Some (st', page) ->
    forall agent, Session.job_agent st' = Some agent ->
      Session.firecrawl_api_key agent
      = (if String.eqb typed_firecrawl_key "" then env_firecrawl_key
         else typed_firecrawl_key)
      /\ Session.mistral_api_key agent
         = (if String.eqb typed_mistral_key "" then env_mistral_key
            else typed_mistral_key)
      /\ Session.agent_model_id agent = chosen_model
      /\ String.eqb (Session.firecrawl_api_key agent) "" = false
      /\ String.eqb (Session.mistral_api_key agent) "" = false.
Proof.
  intros m ef em tf tm st st' page A S agent A'.
  unfold Session.sidebar in S; cbv zeta in S.
  destruct (String.eqb (Session.or_else tf ef) "") eqn:F;
    destruct (String.eqb (Session.or_else tm em) "") eqn:K; cbn [negb andb] in S;
    try (injection S as <- _; cbn in A'; congruence).
  unfold Session.create_job_agent in S; cbn [Session.job_agent Session.firecrawl_key
    Session.model_id Session.mistral_key] in S; rewrite A in S.
  injection S as <- _; cbn in A'; injection A' as <-.
  cbn [Session.firecrawl_api_key Session.mistral_api_key Session.agent_model_id].
  repeat split; try assumption; reflexivity.
Qed.

(** X18 on a fresh session, with a typed Firecrawl key and a Mistral key
    of the environment. *)
Lemma new_agent_gets_the_resolved_keys_witness :
  Session.firecrawl_api_key
    {| Session.firecrawl_api_key := "fc-typed";
       Session.mistral_api_key := "ms-env";
       Session.agent_model_id := "mistral-small-latest" |}
  = (if String.eqb "fc-typed" "" then "fc-env" else "fc-typed")
  /\ Session.mistral_api_key
       {| Session.firecrawl_api_key := "fc-typed";
          Session.mistral_api_key := "ms-env";
          Session.agent_model_id := "mistral-small-latest" |}
     = (if String.eqb "" "" then "ms-env" else "")
  /\ Session.agent_model_id
       {| Session.firecrawl_api_key := "fc-typed";
          Session.mistral_api_key := "ms-env";
          Session.agent_model_id := "mistral-small-latest" |}
     = "mistral-small-latest"
  /\ String.eqb (Session.firecrawl_api_key
                   {| Session.firecrawl_api_key := "fc-typed";
                      Session.mistral_api_key := "ms-env";
                      Session.agent_model_id := "mistral-small-latest" |}) "" = false
  /\ String.eqb (Session.mistral_api_key
                   {| Session.firecrawl_api_key := "fc-typed";
                      Session.mistral_api_key := "ms-env";
                      Session.agent_model_id := "mistral-small-latest" |}) "" = false.
Proof.
  apply (new_agent_gets_the_resolved_keys "mistral-small-latest" "fc-env" "ms-env"
           "fc-typed" "" Session.fresh
           {| Session.model_id := Some "mistral-small-latest";
              Session.firecrawl_key := Some "fc-typed";
              Session.mistral_key := Some "ms-env";
              Session.job_agent :=
                Some {| Session.firecrawl_api_key := "fc-typed";
                        Session.mistral_api_key := "ms-env";
                        Session.agent_model_id := "mistral-small-latest" |} |}
           [st_success "✅ Firecrawl API Key found in environment variables";
            st_success "✅ Mistral API Key found in environment variables"]);
    reflexivity.
Defined.

(** X19.  A missing key blocks the search: from a session without an
    agent, when the Firecrawl key or the Mistral key is neither typed nor
    in the environment, the sidebar warns with the names of the missing
    keys and a click on the search button shows the API-key error only,
    with no remote call, whatever the fields hold. *)
Theorem missing_key_blocks_the_search :
  forall (B : Builtins)
         (firecrawl_extract : list string -> string -> schema -> outcome App.FirecrawlResponse)
         (agent_run : string -> outcome string)
         (chosen_model env_firecrawl_key env_mistral_key
          typed_firecrawl_key typed_mistral_key : string)
         (st : Session.session_state)
         (job_title location : string) (experience_years : pyval)
         (skills : list string) (job_category : string),
    Session.job_agent st = None ->
    String.eqb typed_firecrawl_key "" && String.eqb env_firecrawl_key ""
    || String.eqb typed_mistral_key "" && String.eqb env_mistral_key "" = true ->
    exists st' found missing,
      Session.sidebar chosen_model env_firecrawl_key env_mistral_key
        typed_firecrawl_key typed_mistral_key st
      = Some (st',
              found ++
              [st_warning ("⚠️ Missing required API keys: " ++ join ", " missing);
               st_info "Please provide the missing keys above or set them in environment variables."])%list
      /\ missing <> []
      /\ (In "Firecrawl API key" missing <->
          typed_firecrawl_key = "" /\ env_firecrawl_key = "")
      /\ (In "Mistral API key" missing <->
          typed_mistral_key = "" /\ env_mistral_key = "")
      /\ exec (Session.on_search firecrawl_extract agent_run st' job_title location
                 experience_years skills job_category)
         = (Returned tt,
            [Show (st_error "⚠️ Please enter your API keys in the sidebar first!")]).
Proof.
  intros B fe ar m ef em tf tm st jt loc ey sk jc A K.
  unfold Session.sidebar; cbv zeta; unfold Session.missing_keys.
  rewrite !or_else_empty.
  assert (Q : forall a b, String.eqb a "" && String.eqb b "" = true
                          <-> a = "" /\ b = "").
  { intros a b; rewrite andb_true_iff, !String.eqb_eq; tauto. }
  destruct (String.eqb tf "" && String.eqb ef "") eqn:F;
    destruct (String.eqb tm "" && String.eqb em "") eqn:G;
    cbn [negb andb orb] in *; try discriminate;
    do 3 eexists; (split; [reflexivity |]);
    (split; [discriminate |]);
    rewrite <- (Q tf ef), <- (Q tm em), F, G; cbn [In app];
    (split; [| split]);
    try (unfold Session.on_search; cbn [Session.job_agent]; rewrite A; reflexivity);
    split; intros X; try discriminate; try reflexivity;
    try (now left); try (now right; left);
    repeat (destruct X as [X|X]; try discriminate X); try contradiction.
Qed.

(** X19 on a fresh session with no Mistral key. *)
Lemma missing_key_blocks_the_search_witness :
  exists st' found missing,
    Session.sidebar "mistral-small-latest" "fc-env" "" "" "" Session.fresh
    = Some (st',
            found ++
            [st_warning ("⚠️ Missing required API keys: " ++ join ", " missing);
             st_info "Please provide the missing keys above or set them in environment variables."])%list
    /\ missing <> []
    /\ (In "Firecrawl API key" missing <-> "" = "" /\ "fc-env" = "")
    /\ (In "Mistral API key" missing <-> "" = "" /\ "" = "")
    /\ exec (@Session.on_search ascii_text
               (Sample.extract_returns (Sample.response true []))
               (Sample.run_returns "report") st'
               Sample.job_title Sample.location Sample.experience_years Sample.skills
               Sample.job_category)
       = (Returned tt,
          [Show (st_error "⚠️ Please enter your API keys in the sidebar first!")]).
Proof.
  apply (missing_key_blocks_the_search ascii_text
           (Sample.extract_returns (Sample.response true []))
           (Sample.run_returns "report")
           "mistral-small-latest" "fc-env" "" "" "" Session.fresh
           Sample.job_title Sample.location Sample.experience_years Sample.skills
           Sample.job_category); reflexivity.
Defined.
